(** * Conversation state machine of the insurance quote assistant

    A shallow embedding of the Python sources
      - [agents/travel_payload_agent.py]
      - [agents/family_payload_agent.py]
      - [agents/intelligent_orchestrator.py]
      - [agents/quote_manager.py]
      - [app/session_manager.py]
    followed by the properties the specification states about them.

    Modelling conventions.
    - Python objects that travel through the JSON session store are values
      of the type [value]; a Python [dict] with string keys is a
      [gmap string value].
    - Text is modelled by [string] (8-bit characters); the case and
      white-space functions follow Python on the ASCII range.
    - A Python function that can raise returns a [result].  Code that talks
      to the session store runs in the monad [M], in which a raised
      exception keeps every store write made before it.
    - The Redis store is modelled for the one key [session:<id>] of the
      conversation at hand, without connection failures and without
      concurrent writers; the wall clock is the parameter [now]. *)

From Stdlib Require Import ZArith Lia Bool Ascii String List.
From stdpp Require Import gmap strings list fin_maps pretty.
Import ListNotations.

#[local] Set Warnings "-register-all".
#[local] Open Scope string_scope.
#[local] Open Scope Z_scope.

(* ===================================================================== *)
(** ** Python values and exceptions *)
(* ===================================================================== *)

Inductive value : Type :=
| VNone
| VBool (b : bool)
| VInt (z : Z)
| VStr (s : string)
| VList (l : list value)
| VDict (d : gmap string value).

Inductive exn : Type :=
| ValueError | KeyError | IndexError | TypeError | AttributeError.

Inductive result (A : Type) : Type :=
| Ok (a : A)
| Raise (e : exn).
Arguments Ok {A} a.
Arguments Raise {A} e.

Definition rbind {A B : Type} (k : A -> result B) (r : result A) : result B :=
  match r with
  | Ok a => k a
  | Raise e => Raise e
  end.

#[global] Instance result_ret : MRet result := fun _ a => Ok a.
#[global] Instance result_bind : MBind result := fun _ _ k r => rbind k r.

(** Python truthiness ([if x:], [not x]). *)
Definition truthy (v : value) : bool :=
  match v with
  | VNone => false
  | VBool b => b
  | VInt z => negb (z =? 0)
  | VStr s => negb (s =? "")%string
  | VList l => match l with [] => false | _ => true end
  | VDict d => negb (Nat.eqb (size d) 0)
  end.

Definition is_none (v : value) : bool :=
  match v with VNone => true | _ => false end.

(** [v == 'literal'] for a string literal. *)
Definition eq_str (v : value) (s : string) : bool :=
  match v with VStr t => (t =? s)%string | _ => false end.

(** [d.get(k)] and [d.get(k, dflt)] on a dict. *)
Definition dict_get (d : gmap string value) (k : string) : value :=
  default VNone (d !! k).

Definition dict_get_or (d : gmap string value) (k : string) (dflt : value) : value :=
  default dflt (d !! k).

(** [v.get(k, dflt)] on an arbitrary object: only dicts have [.get]. *)
Definition py_get (v : value) (k : string) (dflt : value) : result value :=
  match v with
  | VDict d => Ok (dict_get_or d k dflt)
  | _ => Raise AttributeError
  end.

(** [v[k]] with a string key. *)
Definition py_getitem (v : value) (k : string) : result value :=
  match v with
  | VDict d => match d !! k with Some x => Ok x | None => Raise KeyError end
  | _ => Raise TypeError
  end.

(** [v[k] = x] with a string key. *)
Definition py_setitem (v : value) (k : string) (x : value) : result value :=
  match v with
  | VDict d => Ok (VDict (<[k := x]> d))
  | _ => Raise TypeError
  end.

(** [v[k1][k2] = x]: the inner dict is mutated in place, so the outer dict
    sees the change. *)
Definition py_setitem2 (v : value) (k1 k2 : string) (x : value) : result value :=
  inner ← py_getitem v k1;
  inner' ← py_setitem inner k2 x;
  py_setitem v k1 inner'.

(** [v[k1][k2][k3] = x]. *)
Definition py_setitem3 (v : value) (k1 k2 k3 : string) (x : value) : result value :=
  inner ← py_getitem v k1;
  inner' ← py_setitem2 inner k2 k3 x;
  py_setitem v k1 inner'.

(** Integer operands: [bool] is a subclass of [int]. *)
Definition as_int (v : value) : result Z :=
  match v with
  | VInt z => Ok z
  | VBool b => Ok (if b then 1 else 0)
  | _ => Raise TypeError
  end.

(* ===================================================================== *)
(** ** Python string functions *)
(* ===================================================================== *)

(** [str.isspace] on the ASCII range: TAB..CR, FS..US and the space. *)
Definition py_isspace (a : ascii) : bool :=
  let n := N_of_ascii a in
  (((9 <=? n) && (n <=? 13)) || ((28 <=? n) && (n <=? 32)))%N.

Fixpoint lstrip (s : string) : string :=
  match s with
  | EmptyString => EmptyString
  | String a s' => if py_isspace a then lstrip s' else s
  end.

Fixpoint rstrip (s : string) : string :=
  match s with
  | EmptyString => EmptyString
  | String a s' =>
      match rstrip s' with
      | EmptyString => if py_isspace a then EmptyString else String a EmptyString
      | r => String a r
      end
  end.

(** [s.strip()] *)
Definition strip (s : string) : string := rstrip (lstrip s).

Definition lower_ascii (a : ascii) : ascii :=
  let n := N_of_ascii a in
  if ((65 <=? n) && (n <=? 90))%N then ascii_of_N (n + 32) else a.

(** [s.lower()] *)
Fixpoint lower (s : string) : string :=
  match s with
  | EmptyString => EmptyString
  | String a s' => String (lower_ascii a) (lower s')
  end.

(** [s.startswith(p)] *)
Definition startswith (s p : string) : bool := String.prefix p s.

(** [sub in s] *)
Fixpoint contains (sub s : string) : bool :=
  String.prefix sub s ||
  match s with
  | EmptyString => false
  | String _ s' => contains sub s'
  end.

(** [s.split(c)] for a one-character separator. *)
Fixpoint split (c : ascii) (s : string) : list string :=
  match s with
  | EmptyString => [EmptyString]
  | String a s' =>
      let r := split c s' in
      if Ascii.eqb a c then EmptyString :: r
      else match r with
           | h :: t => String a h :: t
           | [] => [String a EmptyString]
           end
  end.

(** [s.replace(old, new)] for a non-empty [old]: occurrences are replaced
    from left to right without overlap.  [skip] counts the characters of
    an occurrence still to be dropped. *)
Fixpoint replace_from (old new : string) (skip : nat) (s : string) : string :=
  match s with
  | EmptyString => EmptyString
  | String a s' =>
      match skip with
      | S k => replace_from old new k s'
      | O =>
          if String.prefix old s
          then new ++ replace_from old new (Nat.pred (String.length old)) s'
          else String a (replace_from old new O s')
      end
  end.

Definition replace (old new s : string) : string := replace_from old new O s.

(** [sep.join(l)] *)
Fixpoint join (sep : string) (l : list string) : string :=
  match l with
  | [] => EmptyString
  | [x] => x
  | x :: rest => x ++ sep ++ join sep rest
  end.

(* ===================================================================== *)
(** ** [int(text)] *)
(* ===================================================================== *)

Definition digit_of (a : ascii) : option Z :=
  let n := N_of_ascii a in
  if ((48 <=? n) && (n <=? 57))%N then Some (Z.of_N n - 48) else None.

(** Digits with single underscores between them.  [acc] is the number read
    so far, [prev] tells whether the previous character was a digit. *)
Fixpoint int_digits (s : string) (acc : Z) (prev : bool) : option Z :=
  match s with
  | EmptyString => if prev then Some acc else None
  | String a s' =>
      match digit_of a with
      | Some d => int_digits s' (10 * acc + d) true
      | None =>
          if Ascii.eqb a "_" && prev then
            match s' with
            | EmptyString => None
            | String b _ =>
                match digit_of b with
                | Some _ => int_digits s' acc false
                | None => None
                end
            end
          else None
      end
  end.

(** [int(s)]: surrounding white space, an optional sign, decimal digits. *)
Definition py_int (s : string) : result Z :=
  let body := strip s in
  let parsed :=
    match body with
    | String "-" rest => option_map Z.opp (int_digits rest 0 false)
    | String "+" rest => int_digits rest 0 false
    | _ => int_digits body 0 false
    end in
  match parsed with
  | Some z => Ok z
  | None => Raise ValueError
  end.

(* ===================================================================== *)
(** ** Dates: [datetime.strptime(text, "%Y-%m-%d").date()] *)
(* ===================================================================== *)

Record date : Type := Date { year : Z; month : Z; day : Z }.

Definition is_leap (y : Z) : bool :=
  ((y mod 4 =? 0) && (negb (y mod 100 =? 0) || (y mod 400 =? 0))).

Definition days_in_month (y m : Z) : Z :=
  if m =? 2 then (if is_leap y then 29 else 28)
  else if (m =? 4) || (m =? 6) || (m =? 9) || (m =? 11) then 30
  else 31.

(** [_days_before_year] and [_days_before_month] of the datetime module. *)
Definition days_before_year (y : Z) : Z :=
  let y1 := y - 1 in
  y1 * 365 + y1 / 4 - y1 / 100 + y1 / 400.

Definition days_before_month (y m : Z) : Z :=
  match m with
  | 1 => 0 | 2 => 31 | 3 => 59 | 4 => 90 | 5 => 120 | 6 => 151
  | 7 => 181 | 8 => 212 | 9 => 243 | 10 => 273 | 11 => 304 | _ => 334
  end + (if (2 <? m) && is_leap y then 1 else 0).

(** [date.toordinal()]: day 1 is 0001-01-01. *)
Definition toordinal (d : date) : Z :=
  days_before_year (year d) + days_before_month (year d) (month d) + day d.

(** The constructor check of [datetime.date]. *)
Definition valid_date (d : date) : bool :=
  (1 <=? year d) && (year d <=? 9999) &&
  (1 <=? month d) && (month d <=? 12) &&
  (1 <=? day d) && (day d <=? days_in_month (year d) (month d)).

(** The regular expression of a format directive is an ordered list of
    alternatives; an alternative that matches a prefix of the text yields
    the number read and the rest of the text.  [alts] lists the matches in
    the order in which the backtracking matcher tries them. *)
Definition two_digits (a b : ascii) : option Z :=
  match digit_of a, digit_of b with
  | Some x, Some y => Some (10 * x + y)
  | _, _ => None
  end.

(** [%Y] is [\d\d\d\d]. *)
Definition match_Y (s : string) : list (Z * string) :=
  match s with
  | String a (String b (String c (String d rest))) =>
      match two_digits a b, two_digits c d with
      | Some hi, Some lo => [(100 * hi + lo, rest)]
      | _, _ => []
      end
  | _ => []
  end.

(** [%m] is [1[0-2]|0[1-9]|[1-9]]. *)
Definition match_m (s : string) : list (Z * string) :=
  match s with
  | String a rest1 =>
      (match rest1 with
       | String b rest2 =>
           match two_digits a b with
           | Some n => if ((10 <=? n) && (n <=? 12)) || ((1 <=? n) && (n <=? 9))
                       then [(n, rest2)] else []
           | None => []
           end
       | EmptyString => []
       end) ++
      (match digit_of a with
       | Some n => if 1 <=? n then [(n, rest1)] else []
       | None => []
       end)
  | EmptyString => []
  end.

(** [%d] is [3[0-1]|[1-2]\d|0[1-9]|[1-9]| [1-9]]. *)
Definition match_d (s : string) : list (Z * string) :=
  match s with
  | String a rest1 =>
      (match rest1 with
       | String b rest2 =>
           match two_digits a b with
           | Some n => if (1 <=? n) && (n <=? 31) then [(n, rest2)] else []
           | None => []
           end
       | EmptyString => []
       end) ++
      (match digit_of a with
       | Some n => if 1 <=? n then [(n, rest1)] else []
       | None => []
       end) ++
      (match rest1 with
       | String b rest2 =>
           if Ascii.eqb a " " then
             match digit_of b with
             | Some n => if 1 <=? n then [(n, rest2)] else []
             | None => []
             end
           else []
       | EmptyString => []
       end)
  | EmptyString => []
  end.

Definition match_lit (c : ascii) (s : string) : list string :=
  match s with
  | String a rest => if Ascii.eqb a c then [rest] else []
  | EmptyString => []
  end.

(** All matches of [%Y-%m-%d] at the start of the text, in matcher order. *)
Definition match_ymd (s : string) : list (date * string) :=
  '(y, s1) ← match_Y s;
  s2 ← match_lit "-" s1;
  '(m, s3) ← match_m s2;
  s4 ← match_lit "-" s3;
  '(d, s5) ← match_d s4;
  [(Date y m d, s5)].

(** [datetime.strptime(s, "%Y-%m-%d").date()]: the first match is taken,
    text left over after it is an error, and so is an impossible date. *)
Definition strptime_ymd (s : string) : result date :=
  match match_ymd s with
  | (d, EmptyString) :: _ => if valid_date d then Ok d else Raise ValueError
  | _ => Raise ValueError
  end.


(* ===================================================================== *)
(** ** Dynamic operators used by the agents *)
(* ===================================================================== *)

(** [v > n] for an integer literal [n]: any operand that is not a number
    is a [TypeError]. *)
Definition py_gt_int (v : value) (n : Z) : result bool :=
  z ← as_int v; mret (n <? z).

(** [a < b] between two stored values: integers by value, strings in
    lexicographic order.  The code only ever stores integers under the
    keys it compares; other operand types are outside the model and are
    given as [TypeError]. *)
Definition py_lt (a b : value) : result bool :=
  match a, b with
  | VStr x, VStr y =>
      Ok (match String.compare x y with Lt => true | _ => false end)
  | _, _ => x ← as_int a; y ← as_int b; mret (x <? y)
  end.

(** [a + b]: integers add, strings and lists concatenate. *)
Definition py_add (a b : value) : result value :=
  match a, b with
  | VStr x, VStr y => Ok (VStr (x ++ y))
  | VList x, VList y => Ok (VList (x ++ y))
  | _, _ => x ← as_int a; y ← as_int b; mret (VInt (x + y))
  end.

(** [[x] * n]: a list of [n] copies, empty for [n <= 0]. *)
Definition py_repeat (x : value) (n : value) : result value :=
  k ← as_int n; mret (VList (List.repeat x (Z.to_nat k))).

(** [sum(l)] of a list of numbers. *)
Fixpoint py_sum_from (acc : Z) (l : list value) : result Z :=
  match l with
  | [] => Ok acc
  | x :: rest => z ← as_int x; py_sum_from (acc + z) rest
  end.

Definition py_sum (l : list value) : result Z := py_sum_from 0 l.

(** [for h in v]: the elements of a list, the keys of a dict, the
    characters of a string. *)
Definition py_iter (v : value) : result (list value) :=
  match v with
  | VList l => Ok l
  | VDict d => Ok ((fun kv => VStr kv.1) <$> map_to_list d)
  | VStr s => Ok ((fun a => VStr (String a EmptyString)) <$> list_ascii_of_string s)
  | _ => Raise TypeError
  end.

(** [k in v] for a string [k]. *)
Definition py_in (k : string) (v : value) : result bool :=
  match v with
  | VDict d => Ok (bool_decide (is_Some (d !! k)))
  | VList l => Ok (existsb (fun x => eq_str x k) l)
  | VStr s => Ok (contains k s)
  | _ => Raise TypeError
  end.

(** [v.update(d')] *)
Definition py_update (v : value) (d' : gmap string value) : result value :=
  match v with
  | VDict d => Ok (VDict (d' ∪ d))
  | _ => Raise AttributeError
  end.

(** [v.append(x)] *)
Definition py_append (v : value) (x : value) : result value :=
  match v with
  | VList l => Ok (VList (l ++ [x]))
  | _ => Raise AttributeError
  end.

(** [if validation_error:] on an optional message. *)
Definition is_error (validation_error : option string) : bool :=
  match validation_error with
  | Some e => negb (e =? "")%string
  | None => false
  end.

(** [str(n)] *)
Definition py_str_of_int (n : Z) : string := pretty n.

(** [mapM] over a list, left to right. *)
Fixpoint rmap {A B : Type} (f : A -> result B) (l : list A) : result (list B) :=
  match l with
  | [] => Ok []
  | x :: rest => y ← f x; ys ← rmap f rest; mret (y :: ys)
  end.

(** A dict literal. *)
Definition mkdict (l : list (string * value)) : gmap string value := list_to_map l.

(* ===================================================================== *)
(** ** [app/session_manager.py] *)
(* ===================================================================== *)

Record session : Type := Session {
  session_id : string;
  stage : string;
  chat_history : list value;
  collected_info : gmap string value;
  conversation_context : gmap string value;
  last_active : Z
}.

(** The value stored under the key of this conversation, if any. *)
Definition store : Type := option session.

(** Computations over the session store.  An exception leaves the store
    as it was when the exception was raised. *)
Definition M (A : Type) : Type := store -> result A * store.

Definition M_ret {A : Type} (a : A) : M A := fun st => (Ok a, st).

Definition M_bind {A B : Type} (k : A -> M B) (m : M A) : M B :=
  fun st =>
    match m st with
    | (Ok a, st') => k a st'
    | (Raise e, st') => (Raise e, st')
    end.

#[global] Instance M_mret : MRet M := fun _ a => M_ret a.
#[global] Instance M_mbind : MBind M := fun _ _ k m => M_bind k m.

(** A pure, possibly raising, step. *)
Definition lift {A : Type} (r : result A) : M A := fun st => (r, st).

(** [try: body except Exception: handler] *)
Definition try_except {A : Type} (body : M A) (handler : exn -> M A) : M A :=
  fun st =>
    match body st with
    | (Ok a, st') => (Ok a, st')
    | (Raise e, st') => handler e st'
    end.

Module SessionManager.
Section WithClock.
(** The reading of [datetime.now()] and the session identifier. *)
Variable now : Z.
Variable sid : string.

Definition get_default_session : session :=
  {| session_id := sid;
     stage := "initial";
     chat_history := [];
     collected_info := ∅;
     conversation_context :=
       mkdict [("primary_product", VStr "UNKNOWN");
               ("last_intent", VNone);
               ("error_count", VInt 0)];
     last_active := now |}.

(** The stored session, or a fresh one that is stored first. *)
Definition get_session : M session :=
  fun st =>
    match st with
    | None => (Ok get_default_session, Some get_default_session)
    | Some s => (Ok s, Some s)
    end.

Definition with_last_active (x : Z) (s : session) : session :=
  {| session_id := session_id s; stage := stage s;
     chat_history := chat_history s;
     collected_info := collected_info s;
     conversation_context := conversation_context s;
     last_active := x |}.

(** The read-modify-write cycle shared by all the setters: the stored
    session (or a fresh one) is changed by [f], stamped and written. *)
Definition modify (f : session -> session) : M () :=
  fun st =>
    (Ok (), Some (with_last_active now (f (default get_default_session st)))).

Definition with_stage (x : string) (s : session) : session :=
  {| session_id := session_id s; stage := x;
     chat_history := chat_history s;
     collected_info := collected_info s;
     conversation_context := conversation_context s;
     last_active := last_active s |}.

Definition with_chat_history (x : list value) (s : session) : session :=
  {| session_id := session_id s; stage := stage s;
     chat_history := x;
     collected_info := collected_info s;
     conversation_context := conversation_context s;
     last_active := last_active s |}.

Definition with_collected_info (x : gmap string value) (s : session) : session :=
  {| session_id := session_id s; stage := stage s;
     chat_history := chat_history s;
     collected_info := x;
     conversation_context := conversation_context s;
     last_active := last_active s |}.

Definition with_conversation_context (x : gmap string value) (s : session) : session :=
  {| session_id := session_id s; stage := stage s;
     chat_history := chat_history s;
     collected_info := collected_info s;
     conversation_context := x;
     last_active := last_active s |}.

(** [l[-100:]] *)
Definition last100 (l : list value) : list value :=
  drop (length l - 100)%nat l.

Definition update_session (user_message : string) (agent_response : value) : M () :=
  modify (fun s =>
    with_chat_history
      (last100 (chat_history s
                ++ [VList [VStr "user"; VStr user_message]]
                ++ [VList [VStr "assistant"; agent_response]])) s).

Definition get_chat_history : M (list value) :=
  s ← get_session; mret (chat_history s).

Definition get_stage : M string :=
  s ← get_session; mret (stage s).

Definition set_stage (x : string) : M () :=
  modify (with_stage x).

Definition get_collected_info : M (gmap string value) :=
  s ← get_session; mret (collected_info s).

Definition set_collected_info (key : string) (v : value) : M () :=
  modify (fun s => with_collected_info (<[key := v]> (collected_info s)) s).

(** [update_conversation_context(session_id, **kwargs)]: every keyword
    is written over the stored context.  A keyword named [session_id]
    clashes with the positional parameter. *)
Definition update_conversation_context (kwargs : gmap string value) : M () :=
  match kwargs !! "session_id" with
  | Some _ => lift (Raise TypeError)
  | None =>
      modify (fun s =>
        with_conversation_context (kwargs ∪ conversation_context s) s)
  end.

Definition clear_session_for_global_reset : M () :=
  fun _ => (Ok (), Some get_default_session).

End WithClock.
End SessionManager.

(* ===================================================================== *)
(** ** [agents/travel_payload_agent.py] *)
(* ===================================================================== *)

Module Travel.

Definition get_country_code_map : gmap string string :=
  list_to_map
    [("albania", "ALB"); ("antarctica", "ATA"); ("argentina", "ARG");
     ("australia", "AUS"); ("austria", "AUS"); ("bahrain", "BAH");
     ("bangladesh", "BAN"); ("belgium", "BEL"); ("bhutan", "BTU");
     ("bolivia", "BOL"); ("bosnia and herzegovina", "BIH"); ("brazil", "BRA");
     ("brunei", "BRU"); ("bulgaria", "BUL"); ("cambodia", "CAM");
     ("canada", "CAN"); ("cayman islands", "CYM"); ("chile", "CHL");
     ("china (excluding inner mongolia)", "CHI"); ("colombia", "COL");
     ("costa rica", "COS"); ("croatia", "HRV"); ("cruise to nowhere", "CRU");
     ("cyprus", "CYP"); ("czech republic", "CZE"); ("denmark", "DEN");
     ("egypt", "EGY"); ("estonia", "EST"); ("fiji", "FJI");
     ("finland", "FIN"); ("france", "FRA"); ("french polynesia", "PYF");
     ("germany", "GER"); ("greece", "GRE"); ("hong kong", "HKG");
     ("hungary", "HUN"); ("iceland", "ICE"); ("india", "INN");
     ("indonesia", "IND"); ("ireland", "IRE"); ("israel", "ISR");
     ("italy", "ITA"); ("japan", "JPN"); ("jordan", "JOR");
     ("kazakhstan", "KAZ"); ("kenya", "KEN"); ("korea", "KOR");
     ("kuwait", "KUW"); ("kyrgyzstan", "KGZ"); ("laos", "LAO")].

Definition number_of_travellers_template : value :=
  VDict (mkdict [("total", VNone); ("child", VList []);
                 ("adult", VList []); ("group", VInt 1)]).

Definition get_single_trip_template : value :=
  VDict (mkdict
    [("ProductCode", VStr "TVP");
     ("media", VDict (mkdict [("wcc", VStr "HLS")]));
     ("travel", VDict (mkdict
        [("policy_type", VStr "single"); ("country_code", VList []);
         ("number_of_days", VNone); ("zone", VNone);
         ("with_children", VStr "no"); ("with_spouse", VStr "no");
         ("with_group_of_adults", VStr "no");
         ("with_group_of_households", VStr "no");
         ("plan", VStr "gold");
         ("selectedAddOns", VDict ∅);
         ("number_of_travellers", number_of_travellers_template)]));
     ("promotion", VDict (mkdict [("coupon_code", VStr "")]));
     ("leads", VDict (mkdict [("email", VNone); ("contact_mobile", VNone)]));
     ("CEPParams", VDict ∅)]).

Definition get_annual_trip_template : value :=
  VDict (mkdict
    [("ProductCode", VStr "TPX");
     ("media", VDict (mkdict [("wcc", VStr "HLS")]));
     ("travel", VDict (mkdict
        [("policy_type", VStr "annual"); ("country_code", VNone);
         ("number_of_days", VInt 1); ("zone", VNone);
         ("with_children", VStr "no"); ("with_spouse", VStr "no");
         ("with_group_of_adults", VStr "no");
         ("with_group_of_households", VStr "no");
         ("plan", VStr "gold");
         ("selectedAddOns", VDict ∅);
         ("number_of_travellers", number_of_travellers_template)]));
     ("promotion", VDict (mkdict [("coupon_code", VStr "")]));
     ("leads", VDict (mkdict [("email", VNone); ("contact_mobile", VNone)]));
     ("CEPParams", VDict ∅)]).

Definition QUESTION_MAP : gmap string string :=
  list_to_map
    [("policy_type", "Are you looking for a **Single Trip** or an **Annual Multi-Trip** policy?");
     ("group_type_single", "Who will be traveling? (Yourself, Family, Group of Adults, or Group of Family)");
     ("group_type_annual", "Who will this annual plan cover? (Yourself or Family)");
     ("zone", "Which region do you need coverage for? (**Asia** or **Worldwide**)");
     ("num_adults", "How many adults?");
     ("num_children", "How many children?");
     ("num_adults_group", "How many adults are in the group?");
     ("num_households", "How many families (households) are traveling together?");
     ("household_info", "For family #{num}, how many adults and children?");
     ("destination", "Where are you traveling to? You can enter one or more countries separated by commas (max 10).");
     ("start_date", "What is your travel start date (YYYY-MM-DD)?");
     ("end_date", "And what is your travel end date (YYYY-MM-DD)?");
     ("addon_pre_ex", "Do you need coverage for pre-existing medical conditions? (yes/no)");
     ("addon_ffm", "Add coverage for Loss of Frequent Flyer Miles? (yes/no)");
     ("addon_flight_delay", "Add the Flight Delay benefit? (yes/no)");
     ("coupon_code", "Do you have a coupon code? (If not, just say 'no')");
     ("email", "What is your email address?");
     ("contact_mobile", "Finally, what is your 8-digit contact mobile number?")].

(** The three user-facing messages of the answer processor. *)
Definition MSG_TOO_MANY : string :=
  "You can select a maximum of 10 countries. Please provide your destination(s) again.".

Definition msg_unknown (unknown_countries : list string) : string :=
  "I don't have information for: " ++ join ", " unknown_countries
  ++ ". Please choose from the available destinations.".

Definition MSG_OVER_LIMIT : string :=
  "For an Annual Family plan, the maximum is 2 adults and 5 children. Let's start over with the number of travelers.".

Definition MSG_DONE : string :=
  "Thank you, I have all the information. Generating your quote now...".

(** The loop over the entered names: recognised names give their codes,
    the others are listed. *)
Fixpoint lookup_countries (entered : list string) : list string * list string :=
  match entered with
  | [] => ([], [])
  | country_name :: rest =>
      let '(country_codes, unknown_countries) := lookup_countries rest in
      match get_country_code_map !! country_name with
      | Some code =>
          if negb (code =? "")%string
          then (code :: country_codes, unknown_countries)
          else (country_codes, country_name :: unknown_countries)
      | None => (country_codes, country_name :: unknown_countries)
      end
  end.

(** The condition of line 180: an annual family plan with more than two
    adults or more than five children. *)
Definition over_limit (context : gmap string value) : result bool :=
  let adults := dict_get_or context "num_adults" (VInt 0) in
  let children := dict_get_or context "num_children" (VInt 0) in
  if eq_str (dict_get context "policy_type_choice") "annual"
     && eq_str (dict_get context "group_type_choice") "family"
  then
    a ← py_gt_int adults 2;
    if (a : bool) then Ok true else py_gt_int children 5
  else Ok false.

(** Line 192: the two numbers of a household answer, separated by a comma
    or by the word [and]. *)
Definition parse_household (answer : string) : result (Z * Z) :=
  let parts := strip <$> split "," (replace "and" "," answer) in
  p0 ← match parts !! 0%nat with Some p => Ok p | None => Raise IndexError end;
  adults ← py_int p0;
  p1 ← match parts !! 1%nat with Some p => Ok p | None => Raise IndexError end;
  children ← py_int p1;
  mret (adults, children).

(** What [process_user_answer] hands back: the record, the context and
    the validation error, if any. *)
Definition answer_outcome : Type :=
  (value * gmap string value * option string)%type.

(** Lines 129-202: the answer is applied to the record and to the local
    copy of the context.  An early [return] of the source is the result
    [inl]; falling through to line 204 is [inr]. *)
Definition apply_answer (user_message : string) (payload : value)
    (context : gmap string value)
  : result (answer_outcome + answer_outcome) :=
  let last_q := dict_get context "current_question_key" in
  let answer := strip user_message in
  if eq_str last_q "policy_type" then
    if contains "annual" (lower answer)
    then Ok (inr (get_annual_trip_template,
                  <["policy_type_choice" := VStr "annual"]> context, None))
    else Ok (inr (get_single_trip_template,
                  <["policy_type_choice" := VStr "single"]> context, None))
  else if eq_str last_q "group_type_single" then
    let ans_lower := lower answer in
    let choice :=
      if contains "group of families" ans_lower || contains "households" ans_lower
      then "group_family"
      else if contains "group of adults" ans_lower then "group_adults"
      else if contains "family" ans_lower then "family"
      else "myself" in
    Ok (inr (payload, <["group_type_choice" := VStr choice]> context, None))
  else if eq_str last_q "group_type_annual" then
    let choice := if contains "family" (lower answer) then "family" else "myself" in
    Ok (inr (payload, <["group_type_choice" := VStr choice]> context, None))
  else if eq_str last_q "zone" then
    payload' ← py_setitem2 payload "travel" "zone"
                 (VStr (if contains "asia" (lower answer) then "A2" else "A3"));
    mret (inr (payload', context, None))
  else if eq_str last_q "destination" then
    let entered_countries := (fun c => lower (strip c)) <$> split "," answer in
    if (10 <? length entered_countries)%nat then
      Ok (inl (payload, context, Some MSG_TOO_MANY))
    else
      let '(country_codes, unknown_countries) := lookup_countries entered_countries in
      match unknown_countries with
      | _ :: _ => Ok (inl (payload, context, Some (msg_unknown unknown_countries)))
      | [] =>
          payload' ← py_setitem2 payload "travel" "country_code"
                       (VList (VStr <$> country_codes));
          mret (inr (payload', context, None))
      end
  else if eq_str last_q "start_date" then
    Ok (inr (payload, <["start_date" := VStr (replace "/" "-" answer)]> context, None))
  else if eq_str last_q "end_date" then
    Ok (inr (payload, <["end_date" := VStr (replace "/" "-" answer)]> context, None))
  else if eq_str last_q "num_adults" then
    n ← py_int answer;
    mret (inr (payload, <["num_adults" := VInt n]> context, None))
  else if eq_str last_q "num_children" then
    n ← py_int answer;
    let context1 := <["num_children" := VInt n]> context in
    over ← over_limit context1;
    if (over : bool) then
      mret (inr (payload,
                 <["current_question_key" := VStr "num_adults"]>
                   (delete "num_children" (delete "num_adults" context1)),
                 Some MSG_OVER_LIMIT))
    else mret (inr (payload, context1, None))
  else if eq_str last_q "num_adults_group" then
    n ← py_int answer;
    mret (inr (payload, <["num_adults_group" := VInt n]> context, None))
  else if eq_str last_q "num_households" then
    n ← py_int answer;
    n' ← py_int answer;
    mret (inr (payload,
               <["households_data" := VList []]>
                 (<["households_collected" := VInt 0]>
                    (<["households_to_collect" := VInt n']>
                       (<["num_households" := VInt n]> context))),
               None))
  else if eq_str last_q "household_info" then
    '(adults, children) ← parse_household answer;
    data ← match context !! "households_data" with
           | Some d => Ok d | None => Raise KeyError end;
    data' ← py_append data
              (VDict (mkdict [("adults", VInt adults); ("children", VInt children)]));
    let context1 := <["households_data" := data']> context in
    collected ← py_add (dict_get_or context1 "households_collected" (VInt 0)) (VInt 1);
    mret (inr (payload, <["households_collected" := collected]> context1, None))
  else
    match last_q with
    | VStr q =>
        if startswith q "addon_" then
          let is_selected := contains "yes" (lower answer) in
          let entry := VDict (mkdict [("selected", VBool is_selected)]) in
          if (q =? "addon_pre_ex")%string then
            payload' ← py_setitem3 payload "travel" "selectedAddOns" "preExAddOn" entry;
            mret (inr (payload', context, None))
          else if (q =? "addon_ffm")%string then
            payload' ← py_setitem3 payload "travel" "selectedAddOns" "lossFFMAddOn" entry;
            mret (inr (payload', context, None))
          else if (q =? "addon_flight_delay")%string then
            payload' ← py_setitem3 payload "travel" "selectedAddOns" "flightDelayAddOn" entry;
            mret (inr (payload', context, None))
          else mret (inr (payload, context, None))
        else if (q =? "coupon_code")%string then
          payload' ← py_setitem2 payload "promotion" "coupon_code"
                       (VStr (if contains "no" (lower answer) then "" else answer));
          mret (inr (payload', context, None))
        else if (q =? "email")%string then
          payload' ← py_setitem2 payload "leads" "email" (VStr answer);
          mret (inr (payload', context, None))
        else if (q =? "contact_mobile")%string then
          payload' ← py_setitem2 payload "leads" "contact_mobile" (VStr answer);
          mret (inr (payload', context, None))
        else mret (inr (payload, context, None))
    | _ => Raise AttributeError
    end.

(** [payload.get('travel', {}).get(k)] *)
Definition travel_field (payload : value) (k : string) : result value :=
  travel ← py_get payload "travel" (VDict ∅);
  py_get travel k VNone.

Definition determine_next_question (payload : value) (context : gmap string value)
  : result string :=
  let policy_type := dict_get context "policy_type_choice" in
  let group_type := dict_get context "group_type_choice" in
  if negb (truthy group_type) then
    Ok (if eq_str policy_type "annual" then "group_type_annual" else "group_type_single")
  else
    branch ←
      (if eq_str policy_type "annual" then
         zone ← travel_field payload "zone";
         if negb (truthy zone) then Ok (Some "zone")
         else if eq_str group_type "family" && is_none (dict_get context "num_adults")
         then Ok (Some "num_adults")
         else if eq_str group_type "family" && is_none (dict_get context "num_children")
         then Ok (Some "num_children")
         else
           travel ← py_get payload "travel" (VDict ∅);
           addons ← py_get travel "selectedAddOns" (VDict ∅);
           pre_ex ← py_get addons "preExAddOn" VNone;
           if negb (truthy pre_ex) then Ok (Some "addon_pre_ex") else Ok None
       else
         if eq_str group_type "family" && is_none (dict_get context "num_adults")
         then Ok (Some "num_adults")
         else if eq_str group_type "family" && is_none (dict_get context "num_children")
         then Ok (Some "num_children")
         else if eq_str group_type "group_adults"
                 && is_none (dict_get context "num_adults_group")
         then Ok (Some "num_adults_group")
         else if eq_str group_type "group_family"
                 && is_none (dict_get context "num_households")
         then Ok (Some "num_households")
         else
           more ←
             (if eq_str group_type "group_family"
              then py_lt (dict_get_or context "households_collected" (VInt 0))
                         (dict_get_or context "households_to_collect" (VInt 0))
              else Ok false);
           if (more : bool) then Ok (Some "household_info")
           else
             country_code ← travel_field payload "country_code";
             if negb (truthy country_code) then Ok (Some "destination")
             else if negb (truthy (dict_get context "start_date")) then Ok (Some "start_date")
             else if negb (truthy (dict_get context "end_date")) then Ok (Some "end_date")
             else
               travel ← py_get payload "travel" (VDict ∅);
               addons ← py_get travel "selectedAddOns" (VDict ∅);
               has_pre_ex ← py_in "preExAddOn" addons;
               if negb has_pre_ex then Ok (Some "addon_pre_ex")
               else
                 has_ffm ← py_in "lossFFMAddOn" addons;
                 if negb has_ffm then Ok (Some "addon_ffm")
                 else
                   has_delay ← py_in "flightDelayAddOn" addons;
                   if negb has_delay then Ok (Some "addon_flight_delay")
                   else Ok None);
    match branch : option string with
    | Some key => Ok key
    | None =>
        promotion ← py_get payload "promotion" (VDict ∅);
        coupon_code ← py_get promotion "coupon_code" VNone;
        if is_none coupon_code then Ok "coupon_code"
        else
          leads ← py_get payload "leads" (VDict ∅);
          email ← py_get leads "email" VNone;
          if negb (truthy email) then Ok "email"
          else
            leads' ← py_get payload "leads" (VDict ∅);
            contact_mobile ← py_get leads' "contact_mobile" VNone;
            if negb (truthy contact_mobile) then Ok "contact_mobile"
            else Ok "DONE"
    end.

(** [payload['travel']['number_of_travellers'].update(d)] *)
Definition update_travellers (payload : value) (d : gmap string value) : result value :=
  travel ← py_getitem payload "travel";
  travellers ← py_getitem travel "number_of_travellers";
  travellers' ← py_update travellers d;
  travel' ← py_setitem travel "number_of_travellers" travellers';
  py_setitem payload "travel" travel'.

Definition yes_no (b : bool) : value := VStr (if b then "yes" else "no").

(** One entry of [households_info]. *)
Definition household_flags (h : value) : result value :=
  children ← py_getitem h "children";
  with_children ← py_gt_int children 0;
  adults ← py_getitem h "adults";
  with_spouse ← py_gt_int adults 1;
  mret (VDict (mkdict [("with_children", yes_no with_children);
                       ("with_spouse", yes_no with_spouse)])).

(** Lines 235-252: the traveller counts and flags of the chosen group. *)
Definition finalize_travellers (payload : value) (context : gmap string value)
  : result value :=
  let group_type := dict_get context "group_type_choice" in
  if eq_str group_type "myself" then
    update_travellers payload
      (mkdict [("adult", VList [VInt 1]); ("child", VList [VInt 0]); ("total", VInt 1)])
  else if eq_str group_type "family" then
    let adults := dict_get_or context "num_adults" (VInt 0) in
    let children := dict_get_or context "num_children" (VInt 0) in
    total ← py_add adults children;
    payload1 ← update_travellers payload
      (mkdict [("adult", VList [adults]); ("child", VList [children]); ("total", total)]);
    with_children ← py_gt_int children 0;
    payload2 ← (if (with_children : bool)
                then py_setitem2 payload1 "travel" "with_children" (VStr "yes")
                else Ok payload1);
    with_spouse ← py_gt_int adults 1;
    if (with_spouse : bool)
    then py_setitem2 payload2 "travel" "with_spouse" (VStr "yes")
    else Ok payload2
  else if eq_str group_type "group_adults" then
    let adults := dict_get_or context "num_adults_group" (VInt 0) in
    adult_list ← py_repeat (VInt 1) adults;
    child_list ← py_repeat (VInt 0) adults;
    payload1 ← update_travellers payload
      (mkdict [("adult", adult_list); ("child", child_list); ("total", adults)]);
    py_setitem2 payload1 "travel" "with_group_of_adults" (VStr "yes")
  else if eq_str group_type "group_family" then
    let households_data := dict_get_or context "households_data" (VList []) in
    households ← py_iter households_data;
    adults_list ← rmap (fun h => py_getitem h "adults") households;
    children_list ← rmap (fun h => py_getitem h "children") households;
    sum_adults ← py_sum adults_list;
    sum_children ← py_sum children_list;
    payload1 ← update_travellers payload
      (mkdict [("adult", VList adults_list); ("child", VList children_list);
               ("total", VInt (sum_adults + sum_children));
               ("group", VInt (Z.of_nat (length households)))]);
    payload2 ← py_setitem2 payload1 "travel" "with_group_of_households" (VStr "yes");
    infos ← rmap household_flags households;
    py_setitem2 payload2 "travel" "households_info" (VList infos)
  else Ok payload.

(** [datetime.strptime(context[k], "%Y-%m-%d").date()] *)
Definition context_date (context : gmap string value) (k : string) : result date :=
  match context !! k with
  | None => Raise KeyError
  | Some (VStr s) => strptime_ymd s
  | Some _ => Raise TypeError
  end.

(** Lines 253-255: the trip length of a single-trip policy. *)
Definition finalize_days (payload : value) (context : gmap string value)
  : result value :=
  if eq_str (dict_get context "policy_type_choice") "single" then
    start ← context_date context "start_date";
    end_ ← context_date context "end_date";
    py_setitem2 payload "travel" "number_of_days"
      (VInt (Z.max (toordinal end_ - toordinal start + 1) 1))
  else Ok payload.

Definition finalize_payload (payload : value) (context : gmap string value)
  : result value :=
  payload1 ← finalize_travellers payload context;
  finalize_days payload1 context.

Section WithClock.
Variable now : Z.
Variable sid : string.

(** [process_user_answer]: unless the source returned early, the local
    context is written to the store (line 204) before returning. *)
Definition process_user_answer (user_message : string) (payload : value)
    (context : gmap string value) : M answer_outcome :=
  r ← lift (apply_answer user_message payload context);
  match r : answer_outcome + answer_outcome with
  | inl out => mret out
  | inr out =>
      SessionManager.update_conversation_context now sid out.1.2;;
      mret out
  end.

(** The text of the next question; [#num] would be replaced by the
    number of the household asked about. *)
Definition question_text (next_question_key : string)
    (context : gmap string value) : result string :=
  match QUESTION_MAP !! next_question_key with
  | None => Raise KeyError
  | Some text =>
      if contains "#num" text then
        n ← py_add (dict_get_or context "households_collected" (VInt 0)) (VInt 1);
        match n with
        | VInt z => Ok (replace "#num" (py_str_of_int z) text)
        | _ => Raise TypeError
        end
      else Ok text
  end.

(** Lines 100-122: the reply to an applied answer, and the writes that
    go with it. *)
Definition respond (out : answer_outcome) : M value :=
  let '(payload, context, validation_error) := out in
  if is_error validation_error then mret (VStr (default "" validation_error))
  else
    next_question_key ← lift (determine_next_question payload context);
    if (next_question_key =? "DONE")%string then
      payload' ← lift (finalize_payload payload context);
      SessionManager.set_collected_info now sid "payload" payload';;
      SessionManager.set_stage now sid "quote_generation";;
      SessionManager.update_conversation_context now sid
        {["current_question_key" := VNone]};;
      mret (VStr MSG_DONE)
    else
      text ← lift (question_text next_question_key context);
      SessionManager.update_conversation_context now sid
        {["current_question_key" := VStr next_question_key]};;
      SessionManager.set_collected_info now sid "payload" payload;;
      mret (VStr text).

(** The agent returns [{"output": x}]; the model returns [x]. *)
Definition run_travel_payload_agent (user_message : string)
    (chat_history : list value) : M value :=
  session ← SessionManager.get_session now sid;
  let context := conversation_context session in
  let payload := dict_get (collected_info session) "payload" in
  if negb (truthy (dict_get context "current_question_key")) then
    SessionManager.update_conversation_context now sid
      {["current_question_key" := VStr "policy_type"]};;
    text ← lift (match QUESTION_MAP !! "policy_type" with
                 | Some t => Ok t | None => Raise KeyError end);
    mret (VStr text)
  else
    out ← process_user_answer user_message payload context;
    respond out.

End WithClock.

End Travel.

(* ===================================================================== *)
(** ** [agents/family_payload_agent.py] *)
(* ===================================================================== *)

Module Family.

Definition get_family_payload_template : value :=
  VDict (mkdict
    [("product_code", VStr "FAC");
     ("policyInceptionDate", VNone);
     ("mediaWCC", VStr "HLS");
     ("IsCEPCustomer", VBool false);
     ("IsCEPFirstTimeCustomer", VBool false);
     ("hasRider", VBool true);
     ("premiumType", VNone);
     ("promoCode", VNone);
     ("CEPReferralCode", VNone);
     ("withChildren", VBool false);
     ("withSpouse", VBool false);
     ("_internal", VDict (mkdict [("email", VNone); ("contact_mobile", VNone);
                                  ("insured_party", VNone)]))]).

Definition QUESTION_MAP : gmap string string :=
  list_to_map
    [("premiumType", "Are you looking for a **Monthly** or an **Annual** family insurance plan?");
     ("insured_party", "Who is this plan for? (**Myself**, **Myself with Child(ren)**, or **Family**)");
     ("policyInceptionDate", "What date would you like the plan to start? (YYYY-MM-DD)");
     ("email", "What is your email address?");
     ("contact_mobile", "And your 8-digit Singapore mobile number?");
     ("promoCode", "Finally, do you have a promocode? (If not, just say 'no')")].

Definition MSG_BAD_DATE : string :=
  "That doesn't look like a valid date format. Please use YYYY-MM-DD.".

Definition MSG_DONE : string := "Thank you. Let me get the price for you...".

(** The two flags set together by the insured-party answer. *)
Definition set_flags (payload : value) (with_children with_spouse : bool)
  : result value :=
  payload1 ← py_setitem payload "withChildren" (VBool with_children);
  py_setitem payload1 "withSpouse" (VBool with_spouse).

Definition process_user_answer (user_message : string) (payload : value)
    (context : gmap string value)
  : result (value * gmap string value * option string) :=
  let last_q := dict_get context "current_question_key" in
  let answer := lower (strip user_message) in
  if eq_str last_q "premiumType" then
    payload' ← py_setitem payload "premiumType"
                 (VStr (if contains "annual" answer then "annual" else "monthly"));
    mret (payload', context, None)
  else if eq_str last_q "insured_party" then
    payload1 ← py_setitem2 payload "_internal" "insured_party" (VStr answer);
    payload2 ←
      (if contains "myself with child" answer then set_flags payload1 true false
       else if contains "family" answer then set_flags payload1 true true
       else set_flags payload1 false false);
    mret (payload2, context, None)
  else if eq_str last_q "policyInceptionDate" then
    let date_str := replace "/" "-" answer in
    match strptime_ymd date_str with
    | Ok _ =>
        payload' ← py_setitem payload "policyInceptionDate" (VStr date_str);
        mret (payload', context, None)
    | Raise ValueError => Ok (payload, context, Some MSG_BAD_DATE)
    | Raise e => Raise e
    end
  else if eq_str last_q "email" then
    payload' ← py_setitem2 payload "_internal" "email" (VStr (strip user_message));
    mret (payload', context, None)
  else if eq_str last_q "contact_mobile" then
    payload' ← py_setitem2 payload "_internal" "contact_mobile" (VStr (strip user_message));
    mret (payload', context, None)
  else if eq_str last_q "promoCode" then
    payload' ← py_setitem payload "promoCode"
                 (VStr (if (answer =? "no")%string then "" else strip user_message));
    mret (payload', context, None)
  else Ok (payload, context, None).

(** [payload.get('_internal', {}).get(k)] *)
Definition internal_field (payload : value) (k : string) : result value :=
  internal ← py_get payload "_internal" (VDict ∅);
  py_get internal k VNone.

Definition determine_next_question (payload : value) : result string :=
  premium ← py_get payload "premiumType" VNone;
  if is_none premium then Ok "premiumType"
  else
    insured ← internal_field payload "insured_party";
    if is_none insured then Ok "insured_party"
    else
      inception ← py_get payload "policyInceptionDate" VNone;
      if is_none inception then Ok "policyInceptionDate"
      else
        email ← internal_field payload "email";
        if is_none email then Ok "email"
        else
          mobile ← internal_field payload "contact_mobile";
          if is_none mobile then Ok "contact_mobile"
          else
            promo ← py_get payload "promoCode" VNone;
            if is_none promo then Ok "promoCode"
            else Ok "DONE".

(** [if '_internal' in payload: del payload['_internal']] *)
Definition finalize_payload (payload : value) : result value :=
  present ← py_in "_internal" payload;
  if (present : bool) then
    match payload with
    | VDict d => Ok (VDict (delete "_internal" d))
    | _ => Raise TypeError
    end
  else Ok payload.

Section WithClock.
Variable now : Z.
Variable sid : string.

(** Lines 50-69: the reply to an applied answer, and the writes that go
    with it. *)
Definition respond (out : value * gmap string value * option string) : M value :=
  let '(payload, context, validation_error) := out in
  if is_error validation_error then mret (VStr (default "" validation_error))
  else
    next_question_key ← lift (determine_next_question payload);
    if (next_question_key =? "DONE")%string then
      payload' ← lift (finalize_payload payload);
      SessionManager.set_collected_info now sid "family_payload" payload';;
      SessionManager.set_stage now sid "quote_generation";;
      SessionManager.update_conversation_context now sid
        {["current_question_key" := VNone]};;
      mret (VStr MSG_DONE)
    else
      text ← lift (match QUESTION_MAP !! next_question_key with
                   | Some t => Ok t | None => Raise KeyError end);
      SessionManager.update_conversation_context now sid
        {["current_question_key" := VStr next_question_key]};;
      SessionManager.set_collected_info now sid "family_payload" payload;;
      mret (VStr text).

(** The agent returns [{"output": x}]; the model returns [x]. *)
Definition run_family_payload_agent (user_message : string)
    (chat_history : list value) : M value :=
  session ← SessionManager.get_session now sid;
  let context0 := conversation_context session in
  let payload0 := dict_get (collected_info session) "family_payload" in
  let fresh := negb (truthy (dict_get context0 "current_question_key")) in
  let context1 :=
    if fresh then <["current_question_key" := VStr "premiumType"]> context0
    else context0 in
  let payload1 := if fresh then get_family_payload_template else payload0 in
  out ← lift (process_user_answer user_message payload1 context1);
  respond out.

End WithClock.

End Family.

(* ===================================================================== *)
(** ** [agents/quote_manager.py] *)
(* ===================================================================== *)

Module QuoteManager.
Section WithApi.
Variable now : Z.
Variable sid : string.
(** The quotation service: product label and payload to response. *)
Variable call_api : value -> value -> value.

Definition MSG_LOST_PRODUCT : string :=
  "I'm sorry, I've lost track of which product we were discussing.".

Definition MSG_LOST_DETAILS : string :=
  "I seem to have lost your details. Let's start over.".

Definition QUOTE_FAILURE : value :=
  VDict (mkdict
    [("success", VStr "false");
     ("errors", VList [VStr "A critical error occurred while generating your quote."])]).

Definition run_quote_generation : M value :=
  try_except
    (session ← SessionManager.get_session now sid;
     let context := conversation_context session in
     let product := dict_get context "primary_product" in
     if negb (truthy product) then mret (VStr MSG_LOST_PRODUCT)
     else
       collected ← SessionManager.get_collected_info now sid;
       let payload_key :=
         if eq_str product "FAMILY" then "family_payload" else "payload" in
       let final_payload := dict_get collected payload_key in
       if negb (truthy final_payload) then mret (VStr MSG_LOST_DETAILS)
       else
         let quote_response := call_api product final_payload in
         _ ← lift (py_get quote_response "success" VNone);
         SessionManager.set_stage now sid "initial";;
         mret quote_response)
    (fun _ =>
       SessionManager.set_stage now sid "initial";;
       mret QUOTE_FAILURE).

End WithApi.
End QuoteManager.

(* ===================================================================== *)
(** ** [agents/intelligent_orchestrator.py] *)
(* ===================================================================== *)

Module Orchestrator.

Inductive Product : Type := TRAVEL | FAMILY | POLICY_CLAIM_STATUS | UNKNOWN.

(** The fields of [Intent] the orchestrator reads. *)
Record Intent : Type := { product : Product; intent : string }.

Definition MSG_GREETING : string :=
  "Hello! I can help you with Travel or Family insurance. Which one are you interested in?".

Definition MSG_WHICH_PRODUCT : string :=
  "I can help with Travel or Family insurance. Which product are you interested in?".

Definition MSG_FALLBACK : string :=
  "I'm not sure how to help with that. Please start by telling me if you need Travel or Family insurance.".

Definition MSG_APOLOGY : string :=
  "I'm sorry, a critical error occurred. Please start over by saying 'hi'.".

Section WithCollaborators.
Variable now : Z.
Variable sid : string.
(** The intent classifier; it catches its own failures. *)
Variable get_primary_intent : string -> list value -> Intent.
Variable call_api : value -> value -> value.

(** Lines 23-57: the message is routed by the stage of the session. *)
Definition route (user_message stage : string) (chat_history : list value) : M value :=
  if (stage =? "")%string || (stage =? "initial")%string then
    let intent_result := get_primary_intent user_message chat_history in
    if (intent intent_result =? "greeting")%string then mret (VStr MSG_GREETING)
    else
      match product intent_result with
      | TRAVEL =>
          SessionManager.set_stage now sid "travel_collection";;
          SessionManager.update_conversation_context now sid
            {["primary_product" := VStr "TRAVEL"]};;
          Travel.run_travel_payload_agent now sid user_message chat_history
      | FAMILY =>
          SessionManager.set_stage now sid "family_collection";;
          SessionManager.update_conversation_context now sid
            {["primary_product" := VStr "FAMILY"]};;
          Family.run_family_payload_agent now sid user_message chat_history
      | _ => mret (VStr MSG_WHICH_PRODUCT)
      end
  else if (stage =? "travel_collection")%string then
    Travel.run_travel_payload_agent now sid user_message chat_history
  else if (stage =? "family_collection")%string then
    Family.run_family_payload_agent now sid user_message chat_history
  else if (stage =? "quote_generation")%string then
    QuoteManager.run_quote_generation now sid call_api
  else mret (VStr MSG_FALLBACK).

(** The body of the [try] block. *)
Definition dispatch (user_message : string) : M value :=
  let greeting := lower (strip user_message) in
  if (greeting =? "hi")%string || (greeting =? "hello")%string then
    SessionManager.clear_session_for_global_reset now sid;;
    SessionManager.update_session now sid user_message (VStr MSG_GREETING);;
    mret (VStr MSG_GREETING)
  else
    stage ← SessionManager.get_stage now sid;
    chat_history ← SessionManager.get_chat_history now sid;
    agent_response ← route user_message stage chat_history;
    SessionManager.update_session now sid user_message agent_response;;
    mret agent_response.

Definition orchestrate_chat (user_message : string) : M value :=
  try_except (dispatch user_message) (fun _ => mret (VStr MSG_APOLOGY)).

(** One request: the reply and the store after it. *)
Definition handle (user_message : string) (st : store) : value * store :=
  match orchestrate_chat user_message st with
  | (Ok reply, st') => (reply, st')
  | (Raise _, st') => (VStr MSG_APOLOGY, st')
  end.

End WithCollaborators.

End Orchestrator.

(* ===================================================================== *)
(** ** Notions used to state the properties *)
(* ===================================================================== *)

(** The names entered in a destination answer: the comma-separated parts
    of the trimmed message, each trimmed and lower-cased. *)
Definition destination_tokens (msg : string) : list string :=
  (fun c => lower (strip c)) <$> split "," (strip msg).

(** The entered names the country table does not know. *)
Definition unknown_names (tokens : list string) : list string :=
  filter (fun n => Travel.get_country_code_map !! n = None) tokens.

(** The codes of the entered names the country table knows. *)
Definition known_codes (tokens : list string) : list string :=
  omap (fun n => Travel.get_country_code_map !! n) tokens.

(** *** Well-formed conversation states

    The values the agents keep in the conversation context have fixed
    types; [ctx_typed] records them.  It holds of the context of a fresh
    session and every step of the conversation maintains it. *)

Definition is_int (v : value) : bool :=
  match v with VInt _ => true | _ => false end.

Definition is_str (v : value) : bool :=
  match v with VStr _ => true | _ => false end.

Definition none_or_str (v : value) : bool :=
  match v with VNone | VStr _ => true | _ => false end.

(** One collected household: a dict with integer [adults] and [children]. *)
Definition household_ok (h : value) : bool :=
  match h with
  | VDict d =>
      match d !! "adults", d !! "children" with
      | Some (VInt _), Some (VInt _) => true
      | _, _ => false
      end
  | _ => false
  end.

Definition field_ok (k : string) (v : value) : bool :=
  if (k =? "session_id")%string then false
  else if (k =? "num_adults")%string || (k =? "num_children")%string
          || (k =? "num_adults_group")%string || (k =? "num_households")%string
          || (k =? "households_collected")%string
          || (k =? "households_to_collect")%string
  then is_int v
  else if (k =? "households_data")%string
  then match v with VList l => forallb household_ok l | _ => false end
  else if (k =? "group_type_choice")%string
  then eq_str v "myself" || eq_str v "family"
       || eq_str v "group_adults" || eq_str v "group_family"
  else if (k =? "policy_type_choice")%string
  then eq_str v "annual" || eq_str v "single"
  else if (k =? "start_date")%string || (k =? "end_date")%string
  then is_str v
  else true.

Definition ctx_typed (context : gmap string value) : Prop :=
  map_Forall (fun k v => field_ok k v = true) context.

(** The travel record while it is being filled: one of the two templates
    with the fields the answer processor writes. *)
Definition travel_record (annual : bool) (country_code zone : value)
    (addons : gmap string value) (coupon_code : string)
    (email contact_mobile : value) : value :=
  VDict (mkdict
    [("ProductCode", VStr (if annual then "TPX" else "TVP"));
     ("media", VDict (mkdict [("wcc", VStr "HLS")]));
     ("travel", VDict (mkdict
        [("policy_type", VStr (if annual then "annual" else "single"));
         ("country_code", country_code);
         ("number_of_days", if annual then VInt 1 else VNone);
         ("zone", zone);
         ("with_children", VStr "no"); ("with_spouse", VStr "no");
         ("with_group_of_adults", VStr "no");
         ("with_group_of_households", VStr "no");
         ("plan", VStr "gold");
         ("selectedAddOns", VDict addons);
         ("number_of_travellers", Travel.number_of_travellers_template)]));
     ("promotion", VDict (mkdict [("coupon_code", VStr coupon_code)]));
     ("leads", VDict (mkdict [("email", email); ("contact_mobile", contact_mobile)]));
     ("CEPParams", VDict ∅)]).

(** An add-on entry is [{'selected': True}] or [{'selected': False}]. *)
Definition addon_ok (v : value) : Prop :=
  exists b : bool, v = VDict (mkdict [("selected", VBool b)]).

Definition country_code_ok (v : value) : Prop :=
  v = VNone \/ exists codes : list string, v = VList (VStr <$> codes).

Definition zone_ok (v : value) : Prop :=
  v = VNone \/ v = VStr "A2" \/ v = VStr "A3".

Inductive travel_shape : value -> Prop :=
| travel_shape_intro annual country_code zone addons coupon_code email contact_mobile :
    country_code_ok country_code ->
    zone_ok zone ->
    map_Forall (fun _ v => addon_ok v) addons ->
    none_or_str email = true ->
    none_or_str contact_mobile = true ->
    travel_shape (travel_record annual country_code zone addons coupon_code
                    email contact_mobile).

(** The family record while it is being filled. *)
Definition family_record (inception premium promo : value)
    (with_children with_spouse : bool) (email mobile insured : value) : value :=
  VDict (mkdict
    [("product_code", VStr "FAC");
     ("policyInceptionDate", inception);
     ("mediaWCC", VStr "HLS");
     ("IsCEPCustomer", VBool false);
     ("IsCEPFirstTimeCustomer", VBool false);
     ("hasRider", VBool true);
     ("premiumType", premium);
     ("promoCode", promo);
     ("CEPReferralCode", VNone);
     ("withChildren", VBool with_children);
     ("withSpouse", VBool with_spouse);
     ("_internal", VDict (mkdict [("email", email); ("contact_mobile", mobile);
                                  ("insured_party", insured)]))]).

Inductive family_shape : value -> Prop :=
| family_shape_intro inception premium promo with_children with_spouse
    email mobile insured :
    none_or_str inception = true ->
    none_or_str premium = true ->
    none_or_str promo = true ->
    none_or_str email = true ->
    none_or_str mobile = true ->
    none_or_str insured = true ->
    family_shape (family_record inception premium promo with_children with_spouse
                    email mobile insured).

(** *** The answer processor as a relation

    [answer_effect msg payload context q out] lists, label by label, what
    [Travel.apply_answer] does to the record and the context when the
    awaited field is [q]: [inr] outcomes are written to the store, [inl]
    outcomes are the early returns. *)
Definition group_choice_single (msg : string) : string :=
  let ans_lower := lower (strip msg) in
  if contains "group of families" ans_lower || contains "households" ans_lower
  then "group_family"
  else if contains "group of adults" ans_lower then "group_adults"
  else if contains "family" ans_lower then "family"
  else "myself".

Definition addon_entry (msg : string) : value :=
  VDict (mkdict [("selected", VBool (contains "yes" (lower (strip msg))))]).

Inductive answer_effect (msg : string) (payload : value)
    (context : gmap string value)
  : string -> Travel.answer_outcome + Travel.answer_outcome -> Prop :=
| eff_policy_annual :
    contains "annual" (lower (strip msg)) = true ->
    answer_effect msg payload context "policy_type"
      (inr (Travel.get_annual_trip_template,
            <["policy_type_choice" := VStr "annual"]> context, None))
| eff_policy_single :
    contains "annual" (lower (strip msg)) = false ->
    answer_effect msg payload context "policy_type"
      (inr (Travel.get_single_trip_template,
            <["policy_type_choice" := VStr "single"]> context, None))
| eff_group_single :
    answer_effect msg payload context "group_type_single"
      (inr (payload,
            <["group_type_choice" := VStr (group_choice_single msg)]> context, None))
| eff_group_annual :
    answer_effect msg payload context "group_type_annual"
      (inr (payload,
            <["group_type_choice" :=
                VStr (if contains "family" (lower (strip msg))
                      then "family" else "myself")]> context, None))
| eff_zone payload' :
    py_setitem2 payload "travel" "zone"
      (VStr (if contains "asia" (lower (strip msg)) then "A2" else "A3"))
      = Ok payload' ->
    answer_effect msg payload context "zone" (inr (payload', context, None))
| eff_destination_too_many :
    (10 < length (destination_tokens msg))%nat ->
    answer_effect msg payload context "destination"
      (inl (payload, context, Some Travel.MSG_TOO_MANY))
| eff_destination_unknown :
    (length (destination_tokens msg) <= 10)%nat ->
    unknown_names (destination_tokens msg) ≠ [] ->
    answer_effect msg payload context "destination"
      (inl (payload, context,
            Some (Travel.msg_unknown (unknown_names (destination_tokens msg)))))
| eff_destination payload' :
    (length (destination_tokens msg) <= 10)%nat ->
    unknown_names (destination_tokens msg) = [] ->
    py_setitem2 payload "travel" "country_code"
      (VList (VStr <$> known_codes (destination_tokens msg))) = Ok payload' ->
    answer_effect msg payload context "destination" (inr (payload', context, None))
| eff_start_date :
    answer_effect msg payload context "start_date"
      (inr (payload,
            <["start_date" := VStr (replace "/" "-" (strip msg))]> context, None))
| eff_end_date :
    answer_effect msg payload context "end_date"
      (inr (payload,
            <["end_date" := VStr (replace "/" "-" (strip msg))]> context, None))
| eff_num_adults n :
    py_int (strip msg) = Ok n ->
    answer_effect msg payload context "num_adults"
      (inr (payload, <["num_adults" := VInt n]> context, None))
| eff_num_children n :
    py_int (strip msg) = Ok n ->
    Travel.over_limit (<["num_children" := VInt n]> context) = Ok false ->
    answer_effect msg payload context "num_children"
      (inr (payload, <["num_children" := VInt n]> context, None))
| eff_over_limit n :
    py_int (strip msg) = Ok n ->
    Travel.over_limit (<["num_children" := VInt n]> context) = Ok true ->
    answer_effect msg payload context "num_children"
      (inr (payload,
            <["current_question_key" := VStr "num_adults"]>
              (delete "num_children"
                 (delete "num_adults" (<["num_children" := VInt n]> context))),
            Some Travel.MSG_OVER_LIMIT))
| eff_num_adults_group n :
    py_int (strip msg) = Ok n ->
    answer_effect msg payload context "num_adults_group"
      (inr (payload, <["num_adults_group" := VInt n]> context, None))
| eff_num_households n :
    py_int (strip msg) = Ok n ->
    answer_effect msg payload context "num_households"
      (inr (payload,
            <["households_data" := VList []]>
              (<["households_collected" := VInt 0]>
                 (<["households_to_collect" := VInt n]>
                    (<["num_households" := VInt n]> context))),
            None))
| eff_household_info adults children data data' collected :
    Travel.parse_household (strip msg) = Ok (adults, children) ->
    context !! "households_data" = Some data ->
    py_append data
      (VDict (mkdict [("adults", VInt adults); ("children", VInt children)]))
      = Ok data' ->
    py_add (dict_get_or (<["households_data" := data']> context)
              "households_collected" (VInt 0)) (VInt 1) = Ok collected ->
    answer_effect msg payload context "household_info"
      (inr (payload,
            <["households_collected" := collected]>
              (<["households_data" := data']> context),
            None))
| eff_addon_pre_ex payload' :
    py_setitem3 payload "travel" "selectedAddOns" "preExAddOn" (addon_entry msg)
      = Ok payload' ->
    answer_effect msg payload context "addon_pre_ex" (inr (payload', context, None))
| eff_addon_ffm payload' :
    py_setitem3 payload "travel" "selectedAddOns" "lossFFMAddOn" (addon_entry msg)
      = Ok payload' ->
    answer_effect msg payload context "addon_ffm" (inr (payload', context, None))
| eff_addon_flight_delay payload' :
    py_setitem3 payload "travel" "selectedAddOns" "flightDelayAddOn" (addon_entry msg)
      = Ok payload' ->
    answer_effect msg payload context "addon_flight_delay"
      (inr (payload', context, None))
| eff_coupon_code payload' :
    py_setitem2 payload "promotion" "coupon_code"
      (VStr (if contains "no" (lower (strip msg)) then "" else strip msg))
      = Ok payload' ->
    answer_effect msg payload context "coupon_code" (inr (payload', context, None))
| eff_email payload' :
    py_setitem2 payload "leads" "email" (VStr (strip msg)) = Ok payload' ->
    answer_effect msg payload context "email" (inr (payload', context, None))
| eff_contact_mobile payload' :
    py_setitem2 payload "leads" "contact_mobile" (VStr (strip msg)) = Ok payload' ->
    answer_effect msg payload context "contact_mobile"
      (inr (payload', context, None))
| eff_ignored q :
    q ∉ ["policy_type"; "group_type_single"; "group_type_annual"; "zone";
         "destination"; "start_date"; "end_date"; "num_adults"; "num_children";
         "num_adults_group"; "num_households"; "household_info";
         "addon_pre_ex"; "addon_ffm"; "addon_flight_delay";
         "coupon_code"; "email"; "contact_mobile"] ->
    answer_effect msg payload context q (inr (payload, context, None)).

(** The outcome carried by either kind of return. *)
Definition outcome_of (r : Travel.answer_outcome + Travel.answer_outcome)
  : Travel.answer_outcome :=
  match r with inl out => out | inr out => out end.

(** [payload.get('leads', {}).get('contact_mobile')], [None] when the
    record has no such place. *)
Definition mobile_of (payload : value) : value :=
  match (leads ← py_get payload "leads" (VDict ∅);
         py_get leads "contact_mobile" VNone) with
  | Ok v => v
  | Raise _ => VNone
  end.

(** The resolver on a record of the shape [travel_record]. *)
Definition next_label (context : gmap string value) (country_code zone : value)
    (addons : gmap string value) (email contact_mobile : value) : result string :=
  let policy_type := dict_get context "policy_type_choice" in
  let group_type := dict_get context "group_type_choice" in
  if negb (truthy group_type) then
    Ok (if eq_str policy_type "annual" then "group_type_annual" else "group_type_single")
  else
    branch ←
      (if eq_str policy_type "annual" then
         if negb (truthy zone) then Ok (Some "zone")
         else if eq_str group_type "family" && is_none (dict_get context "num_adults")
         then Ok (Some "num_adults")
         else if eq_str group_type "family" && is_none (dict_get context "num_children")
         then Ok (Some "num_children")
         else if negb (truthy (dict_get addons "preExAddOn"))
         then Ok (Some "addon_pre_ex") else Ok None
       else
         if eq_str group_type "family" && is_none (dict_get context "num_adults")
         then Ok (Some "num_adults")
         else if eq_str group_type "family" && is_none (dict_get context "num_children")
         then Ok (Some "num_children")
         else if eq_str group_type "group_adults"
                 && is_none (dict_get context "num_adults_group")
         then Ok (Some "num_adults_group")
         else if eq_str group_type "group_family"
                 && is_none (dict_get context "num_households")
         then Ok (Some "num_households")
         else
           more ←
             (if eq_str group_type "group_family"
              then py_lt (dict_get_or context "households_collected" (VInt 0))
                         (dict_get_or context "households_to_collect" (VInt 0))
              else Ok false);
           if (more : bool) then Ok (Some "household_info")
           else if negb (truthy country_code) then Ok (Some "destination")
           else if negb (truthy (dict_get context "start_date")) then Ok (Some "start_date")
           else if negb (truthy (dict_get context "end_date")) then Ok (Some "end_date")
           else if negb (bool_decide (is_Some (addons !! "preExAddOn")))
           then Ok (Some "addon_pre_ex")
           else if negb (bool_decide (is_Some (addons !! "lossFFMAddOn")))
           then Ok (Some "addon_ffm")
           else if negb (bool_decide (is_Some (addons !! "flightDelayAddOn")))
           then Ok (Some "addon_flight_delay")
           else Ok None);
    match branch : option string with
    | Some key => Ok key
    | None =>
        if negb (truthy email) then Ok "email"
        else if negb (truthy contact_mobile) then Ok "contact_mobile"
        else Ok "DONE"
    end.


(** The travel record after finalization. *)
Definition travellers_record (total child adult group : value) : gmap string value :=
  mkdict [("total", total); ("child", child); ("adult", adult); ("group", group)].

Definition travel_final (annual : bool) (country_code number_of_days zone : value)
    (with_children with_spouse with_group_of_adults with_group_of_households : string)
    (addons travellers : gmap string value) (households_info : option value)
    (coupon_code : string) (email contact_mobile : value) : value :=
  let travel :=
    mkdict
      [("policy_type", VStr (if annual then "annual" else "single"));
       ("country_code", country_code);
       ("number_of_days", number_of_days);
       ("zone", zone);
       ("with_children", VStr with_children); ("with_spouse", VStr with_spouse);
       ("with_group_of_adults", VStr with_group_of_adults);
       ("with_group_of_households", VStr with_group_of_households);
       ("plan", VStr "gold");
       ("selectedAddOns", VDict addons);
       ("number_of_travellers", VDict travellers)] in
  VDict (mkdict
    [("ProductCode", VStr (if annual then "TPX" else "TVP"));
     ("media", VDict (mkdict [("wcc", VStr "HLS")]));
     ("travel", VDict (match households_info with
                       | Some hi => <["households_info" := hi]> travel
                       | None => travel
                       end));
     ("promotion", VDict (mkdict [("coupon_code", VStr coupon_code)]));
     ("leads", VDict (mkdict [("email", email); ("contact_mobile", contact_mobile)]));
     ("CEPParams", VDict ∅)]).


(** The numbers of a collected household. *)
Definition int_of (v : value) : Z :=
  match v with VInt z => z | _ => 0 end.

Definition household_field (k : string) (h : value) : value :=
  match h with VDict d => default VNone (d !! k) | _ => VNone end.

Definition household_info_entry (h : value) : value :=
  VDict (mkdict
    [("with_children", Travel.yes_no (0 <? int_of (household_field "children" h)));
     ("with_spouse", Travel.yes_no (1 <? int_of (household_field "adults" h)))]).

Definition sum_field (k : string) (hs : list value) : Z :=
  foldr (fun h acc => int_of (household_field k h) + acc) 0 hs.

(** *** Unset leaves

    [none_free v] holds when no leaf of [v] is [None]. *)
Fixpoint none_free (v : value) : bool :=
  match v with
  | VNone => false
  | VList l => forallb none_free l
  | VDict d => map_fold (fun _ x acc => none_free x && acc) true d
  | _ => true
  end.

(** *** Calendar days

    [next_day] is the day after a date; [days_inclusive] counts the days of
    a period with both ends included. *)
Definition next_day (d : date) : date :=
  if day d <? days_in_month (year d) (month d)
  then Date (year d) (month d) (day d + 1)
  else if month d <? 12 then Date (year d) (month d + 1) 1
  else Date (year d + 1) 1 1.


(** *** Sample conversations

    Concrete sessions and collaborators at which the properties are
    exercised. *)
Definition session_of (stage_ : string) (context collected : list (string * value))
  : session :=
  {| session_id := "s1";
     stage := stage_;
     chat_history := [];
     collected_info := mkdict collected;
     conversation_context := mkdict context;
     last_active := 0 |}.



(** The context of a single trip from 2025-03-01 to [end_date]. *)
Definition context_of_trip (end_date : string) : gmap string value :=
  mkdict [("current_question_key", VStr "contact_mobile");
          ("policy_type_choice", VStr "single");
          ("group_type_choice", VStr "myself");
          ("start_date", VStr "2025-03-01");
          ("end_date", VStr end_date)].

(** A classifier that always answers with the given product, and a
    quotation service that always succeeds. *)
Definition classify_as (p : Orchestrator.Product) (_ : string) (_ : list value)
  : Orchestrator.Intent :=
  {| Orchestrator.product := p; Orchestrator.intent := "quote" |}.

Definition api_ok (_ _ : value) : value :=
  VDict (mkdict [("success", VStr "ok")]).

(** A conversation: the messages are handled one after the other, the
    clock advancing by one each time; the replies and the final store. *)
Fixpoint converse (classify : string -> list value -> Orchestrator.Intent)
    (messages : list string) (now : Z) (st : store) : list value * store :=
  match messages with
  | [] => ([], st)
  | m :: rest =>
      let '(reply, st') := Orchestrator.handle now "s1" classify api_ok m st in
      let '(replies, st'') := converse classify rest (now + 1) st' in
      (reply :: replies, st'')
  end.

(** A single trip for one traveller, up to the mobile number; the start
    date is given as [start]. *)
Definition single_trip_messages (start : string) : list string :=
  ["I want travel insurance"; "single"; "myself"; "Japan, France";
   start; "2025-03-05"; "no"; "yes"; "no"; "a@b.c"; "91234567"].

(** A single trip for two households. *)
Definition household_trip_messages : list string :=
  ["I want travel insurance"; "single"; "group of families"; "2";
   "2,1"; "1 and 0"].

(** A family conversation, up to the promo code. *)
Definition family_messages : list string :=
  ["I need family insurance"; "family"; "2025-03-01"; "a@b.c"; "91234567"; "no"].

(** A single-trip conversation waiting for the start date. *)
Definition session_at_start_date : session :=
  session_of "travel_collection"
    [("primary_product", VStr "TRAVEL");
     ("current_question_key", VStr "start_date");
     ("policy_type_choice", VStr "single");
     ("group_type_choice", VStr "myself")]
    [("payload",
      travel_record false (VList [VStr "JPN"]) VNone ∅ "" VNone VNone)].

(** *** Reachable stores and their invariant *)

Definition marker_of (s : session) : value :=
  dict_get (conversation_context s) "current_question_key".

Definition travel_payload_of (s : session) : value :=
  dict_get (collected_info s) "payload".

Definition family_payload_of (s : session) : value :=
  dict_get (collected_info s) "family_payload".

(** While a travel conversation is collecting, either nothing is awaited,
    or the policy type is, or the stored record has the shape of a
    template being filled and no mobile number yet. *)
Definition travel_collecting (s : session) : Prop :=
  truthy (marker_of s) = false
  \/ marker_of s = VStr "policy_type"
  \/ (travel_shape (travel_payload_of s)
      /\ truthy (mobile_of (travel_payload_of s)) = false
      /\ (marker_of s = VStr "contact_mobile" ->
          Travel.determine_next_question (travel_payload_of s)
            (conversation_context s) = Ok "contact_mobile")).

Definition family_collecting (s : session) : Prop :=
  truthy (marker_of s) = false \/ family_shape (family_payload_of s).

Definition session_inv (s : session) : Prop :=
  ctx_typed (conversation_context s)
  /\ if (stage s =? "travel_collection")%string then travel_collecting s
     else if (stage s =? "family_collection")%string then family_collecting s
     else truthy (marker_of s) = false.

Definition store_inv (st : store) : Prop :=
  match st with
  | Some s => session_inv s
  | None => True
  end.

(** The stores a conversation can reach: the empty store, and the store
    left by handling one more message, whatever the message, the clock
    and the answers of the classifier and of the quotation service. *)
Inductive reachable (sid : string) : store -> Prop :=
| reach_empty : reachable sid None
| reach_handle now classify api msg st :
    reachable sid st ->
    reachable sid (Orchestrator.handle now sid classify api msg st).2.

(** Two sessions that differ at most in [last_active]. *)
Definition same_but_clock (s s' : session) : Prop :=
  session_id s' = session_id s
  /\ stage s' = stage s
  /\ chat_history s' = chat_history s
  /\ collected_info s' = collected_info s
  /\ conversation_context s' = conversation_context s.

(** The session after a travel question has been asked: the record is
    stored and the marker names the question. *)
Definition asked_session (now : Z) (payload_key label : string) (payload : value)
    (s : session) : session :=
  SessionManager.with_last_active now
    (SessionManager.with_collected_info
       (<[payload_key := payload]> (collected_info s))
       (SessionManager.with_conversation_context
          ({["current_question_key" := VStr label]} ∪ conversation_context s) s)).

(** The session after finalization: the final record is stored, the stage
    is [quote_generation] and the marker is cleared. *)
Definition done_session (now : Z) (payload_key : string) (final : value)
    (s : session) : session :=
  SessionManager.with_last_active now
    (SessionManager.with_conversation_context
       ({["current_question_key" := VNone]} ∪ conversation_context s)
       (SessionManager.with_stage "quote_generation"
          (SessionManager.with_collected_info
             (<[payload_key := final]> (collected_info s)) s))).

(** What one run of the travel agent may do to a stored session [s]: on
    an exception the session is as before, apart from the time stamp; on a
    reply the conversation is still collecting or has just been
    finalized. *)
Definition travel_step_ok (now : Z) (s : session) (r : result value * store) : Prop :=
  match r with
  | (Raise _, st') =>
      st' = Some s \/ st' = Some (SessionManager.with_last_active now s)
  | (Ok _, Some s') =>
      session_id s' = session_id s
      /\ chat_history s' = chat_history s
      /\ ctx_typed (conversation_context s')
      /\ ((stage s' = stage s /\ travel_collecting s')
          \/ (stage s' = "quote_generation" /\ truthy (marker_of s') = false))
  | (Ok _, None) => False
  end.

(** The family resolver on a record of the shape [family_record]. *)
Definition family_next (inception premium promo email mobile insured : value) : string :=
  if is_none premium then "premiumType"
  else if is_none insured then "insured_party"
  else if is_none inception then "policyInceptionDate"
  else if is_none email then "email"
  else if is_none mobile then "contact_mobile"
  else if is_none promo then "promoCode"
  else "DONE".

(** The family record after finalization. *)
Definition family_final (inception premium promo : value)
    (with_children with_spouse : bool) : gmap string value :=
  mkdict
    [("product_code", VStr "FAC");
     ("policyInceptionDate", inception);
     ("mediaWCC", VStr "HLS");
     ("IsCEPCustomer", VBool false);
     ("IsCEPFirstTimeCustomer", VBool false);
     ("hasRider", VBool true);
     ("premiumType", premium);
     ("promoCode", promo);
     ("CEPReferralCode", VNone);
     ("withChildren", VBool with_children);
     ("withSpouse", VBool with_spouse)].

(** One run of the family agent never raises on a stored session [s] that
    is collecting. *)
Definition family_step_ok (s : session) (r : result value * store) : Prop :=
  match r with
  | (Ok _, Some s') =>
      session_id s' = session_id s
      /\ chat_history s' = chat_history s
      /\ ctx_typed (conversation_context s')
      /\ ((stage s' = stage s /\ family_collecting s')
          \/ (stage s' = "quote_generation" /\ truthy (marker_of s') = false))
  | _ => False
  end.

(** What routing one message may do to a stored session [s]: an exception
    can only come out of a travel conversation and leaves the session as
    it was, apart from the time stamp; a reply leaves a well-formed
    session. *)
Definition route_ok (now : Z) (s : session) (r : result value * store) : Prop :=
  match r with
  | (Raise _, st') =>
      stage s = "travel_collection"
      /\ (st' = Some s \/ st' = Some (SessionManager.with_last_active now s))
  | (Ok _, Some s') => session_inv s'
  | (Ok _, None) => False
  end.

(** A complete family record, a complete single-trip record with its
    context, and what finalization makes of the latter. *)
Definition family_record_complete : value :=
  family_record (VStr "2025-03-01") (VStr "monthly") (VStr "") true true
    (VStr "a@b.c") (VStr "91234567") (VStr "family").

Definition travel_record_complete : value :=
  travel_record false (VList [VStr "JPN"]) VNone
    (mkdict [("preExAddOn", addon_entry "no"); ("lossFFMAddOn", addon_entry "yes");
             ("flightDelayAddOn", addon_entry "no")])
    "" (VStr "a@b.c") (VStr "91234567").

Definition travel_final_complete : value :=
  match Travel.finalize_payload travel_record_complete (context_of_trip "2025-03-05") with
  | Ok final => final
  | Raise _ => VNone
  end.

(** *** Unanswered fields

    [unanswered q payload context] is the test the resolver applies to the
    field [q]: the place the field is stored in is missing, [None] or
    empty, or, for [household_info], fewer households are collected than
    were declared. *)
Definition leaf2 (payload : value) (k1 k2 : string) : value :=
  match (x ← py_get payload k1 (VDict ∅); py_get x k2 VNone) with
  | Ok v => v
  | Raise _ => VNone
  end.

Definition addon_of (payload : value) (k : string) : value :=
  match (travel ← py_get payload "travel" (VDict ∅);
         addons ← py_get travel "selectedAddOns" (VDict ∅);
         py_get addons k VNone) with
  | Ok v => v
  | Raise _ => VNone
  end.

Definition households_pending (context : gmap string value) : bool :=
  match py_lt (dict_get_or context "households_collected" (VInt 0))
              (dict_get_or context "households_to_collect" (VInt 0)) with
  | Ok b => b
  | Raise _ => false
  end.

Definition unanswered (q : string) (payload : value) (context : gmap string value)
  : bool :=
  if (q =? "group_type_single")%string || (q =? "group_type_annual")%string
  then negb (truthy (dict_get context "group_type_choice"))
  else if (q =? "zone")%string then negb (truthy (leaf2 payload "travel" "zone"))
  else if (q =? "num_adults")%string || (q =? "num_children")%string
          || (q =? "num_adults_group")%string || (q =? "num_households")%string
  then is_none (dict_get context q)
  else if (q =? "household_info")%string then households_pending context
  else if (q =? "destination")%string
  then negb (truthy (leaf2 payload "travel" "country_code"))
  else if (q =? "start_date")%string || (q =? "end_date")%string
  then negb (truthy (dict_get context q))
  else if (q =? "addon_pre_ex")%string then negb (truthy (addon_of payload "preExAddOn"))
  else if (q =? "addon_ffm")%string then negb (truthy (addon_of payload "lossFFMAddOn"))
  else if (q =? "addon_flight_delay")%string
  then negb (truthy (addon_of payload "flightDelayAddOn"))
  else if (q =? "coupon_code")%string
  then is_none (leaf2 payload "promotion" "coupon_code")
  else if (q =? "email")%string then negb (truthy (leaf2 payload "leads" "email"))
  else if (q =? "contact_mobile")%string
  then negb (truthy (leaf2 payload "leads" "contact_mobile"))
  else false.

(** The same test for the family record, where every field is tested
    for [None]. *)
Definition family_unanswered (q : string) (payload : value) : bool :=
  if (q =? "premiumType")%string || (q =? "policyInceptionDate")%string
     || (q =? "promoCode")%string
  then is_none (match py_get payload q VNone with Ok v => v | Raise _ => VNone end)
  else if (q =? "insured_party")%string || (q =? "email")%string
          || (q =? "contact_mobile")%string
  then is_none (leaf2 payload "_internal" q)
  else false.

(* ===================================================================== *)
(** ** Auxiliary lemmas *)
(* ===================================================================== *)

Lemma dict_get_insert_ne (d : gmap string value) k k' v :
  k ≠ k' -> dict_get (<[k := v]> d) k' = dict_get d k'.
Proof. intros. unfold dict_get. by rewrite lookup_insert_ne. Qed.

Lemma dict_get_insert_eq (d : gmap string value) k v :
  dict_get (<[k := v]> d) k = v.
Proof. unfold dict_get. by rewrite lookup_insert_eq. Qed.

Lemma dict_get_or_insert_ne (d : gmap string value) k k' v dflt :
  k ≠ k' -> dict_get_or (<[k := v]> d) k' dflt = dict_get_or d k' dflt.
Proof. intros. unfold dict_get_or. by rewrite lookup_insert_ne. Qed.

Lemma dict_get_or_insert_eq (d : gmap string value) k v dflt :
  dict_get_or (<[k := v]> d) k dflt = v.
Proof. unfold dict_get_or. by rewrite lookup_insert_eq. Qed.

(** Lookups through inserts and deletes at literal keys. *)
Ltac dict_simpl :=
  repeat first
    [ rewrite dict_get_insert_eq
    | rewrite dict_get_or_insert_eq
    | rewrite dict_get_insert_ne by done
    | rewrite dict_get_or_insert_ne by done
    | rewrite lookup_insert_eq
    | rewrite lookup_insert_ne by done
    | rewrite lookup_delete_eq
    | rewrite lookup_delete_ne by done ].

(** Comparisons between string literals, evaluated. *)
Ltac eqb_lit :=
  repeat match goal with
  | |- context [String.eqb ?a ?b] =>
      let r := eval vm_compute in (String.eqb a b) in
      match r with true => idtac | false => idtac end;
      change (String.eqb a b) with r
  end.

(** The binds of the two monads, unfolded. *)
Ltac res_simpl :=
  unfold mbind, mret, result_bind, result_ret, M_mbind, M_mret; cbn [rbind].

Lemma M_bind_eq {A B : Type} (m : M A) (k : A -> M B) (st : store) :
  (m ≫= k) st
  = match m st with
    | (Ok a, st') => k a st'
    | (Raise e, st') => (Raise e, st')
    end.
Proof. reflexivity. Qed.

(** Every code of the country table is a non-empty string. *)
Lemma country_codes_nonempty (name code : string) :
  Travel.get_country_code_map !! name = Some code -> code ≠ "".
Proof.
  revert name code.
  change (map_Forall (fun _ code => code ≠ "") Travel.get_country_code_map).
  apply map_Forall_to_list.
  vm_compute map_to_list.
  repeat (apply Forall_cons; split; [done|]).
  apply Forall_nil_2.
Qed.

(** The loop over the entered names computes the known codes and the
    unknown names. *)
Lemma lookup_countries_spec (entered : list string) :
  Travel.lookup_countries entered = (known_codes entered, unknown_names entered).
Proof.
  unfold known_codes, unknown_names.
  induction entered as [|n rest IH]; [reflexivity|].
  cbn [Travel.lookup_countries]. rewrite IH.
  rewrite filter_cons. cbn [omap list_omap].
  destruct (Travel.get_country_code_map !! n) as [code|] eqn:E.
  - apply country_codes_nonempty in E.
    destruct (String.eqb_spec code ""); [done|]. cbn [negb].
    rewrite decide_False by done. reflexivity.
  - rewrite decide_True by done. reflexivity.
Qed.

Lemma apply_answer_inv msg p c r :
  Travel.apply_answer msg p c = Ok r ->
  exists q, dict_get c "current_question_key" = VStr q /\ answer_effect msg p c q r.
Proof.
  unfold Travel.apply_answer.
  destruct (dict_get c "current_question_key") as [| | |q| |] eqn:Hq; cbn [eq_str]; try discriminate.
  intros H. exists q. split; [done|]. revert H.
  destruct (String.eqb_spec q "policy_type") as [->|?].
  { destruct (contains _ _) eqn:E; intros [= <-]; by constructor. }
  destruct (String.eqb_spec q "group_type_single") as [->|?].
  { intros [= <-]. apply eff_group_single. }
  destruct (String.eqb_spec q "group_type_annual") as [->|?].
  { intros [= <-]. apply eff_group_annual. }
  destruct (String.eqb_spec q "zone") as [->|?].
  { destruct (py_setitem2 _ _ _ _) eqn:E; [|discriminate]. intros [= <-]. by constructor. }
  destruct (String.eqb_spec q "destination") as [->|?].
  { fold (destination_tokens msg). rewrite lookup_countries_spec.
    destruct (Nat.ltb_spec 10 (length (destination_tokens msg))).
    { intros [= <-]. by constructor. }
    destruct (unknown_names (destination_tokens msg)) eqn:Eu.
    - destruct (py_setitem2 _ _ _ _) eqn:E; [|discriminate]. intros [= <-].
      apply eff_destination; [lia|done|done].
    - intros [= <-]. rewrite <- Eu. apply eff_destination_unknown; [lia|]. by rewrite Eu. }
  destruct (String.eqb_spec q "start_date") as [->|?].
  { intros [= <-]. constructor. }
  destruct (String.eqb_spec q "end_date") as [->|?].
  { intros [= <-]. constructor. }
  destruct (String.eqb_spec q "num_adults") as [->|?].
  { destruct (py_int _) eqn:E; [|discriminate]. intros [= <-]. by constructor. }
  destruct (String.eqb_spec q "num_children") as [->|?].
  { destruct (py_int _) eqn:E; [|discriminate]. res_simpl.
    destruct (Travel.over_limit _) as [[]|] eqn:E2; [| |discriminate]; cbn [rbind];
      intros [= <-]; by constructor. }
  destruct (String.eqb_spec q "num_adults_group") as [->|?].
  { destruct (py_int _) eqn:E; [|discriminate]. intros [= <-]. by constructor. }
  destruct (String.eqb_spec q "num_households") as [->|?].
  { destruct (py_int _) eqn:E; [|discriminate]. res_simpl.
    intros [= <-]. by constructor. }
  destruct (String.eqb_spec q "household_info") as [->|?].
  { destruct (Travel.parse_household _) as [[a ch]|] eqn:E; [|discriminate]. res_simpl.
    destruct (c !! "households_data") as [data|] eqn:Ed; [|discriminate]. cbn [rbind].
    destruct (py_append _ _) as [data'|] eqn:Ea; [|discriminate]. cbn [rbind].
    destruct (py_add _ _) as [coll|] eqn:Ec; [|discriminate]. cbn [rbind].
    intros [= <-]. by econstructor. }
  unfold startswith.
  destruct (String.prefix "addon_" q) eqn:Epre.
  { destruct (String.eqb_spec q "addon_pre_ex") as [->|?].
    { destruct (py_setitem3 _ _ _ _ _) eqn:E; [|discriminate]. intros [= <-]. by constructor. }
    destruct (String.eqb_spec q "addon_ffm") as [->|?].
    { destruct (py_setitem3 _ _ _ _ _) eqn:E; [|discriminate]. intros [= <-]. by constructor. }
    destruct (String.eqb_spec q "addon_flight_delay") as [->|?].
    { destruct (py_setitem3 _ _ _ _ _) eqn:E; [|discriminate]. intros [= <-]. by constructor. }
    intros [= <-]. apply eff_ignored.
    rewrite !not_elem_of_cons. split_and!; try done.
    - intros ->. discriminate.
    - intros ->. discriminate.
    - intros ->. discriminate.
    - apply not_elem_of_nil. }
  destruct (String.eqb_spec q "coupon_code") as [->|?].
  { destruct (py_setitem2 _ _ _ _) eqn:E; [|discriminate]. intros [= <-]. by constructor. }
  destruct (String.eqb_spec q "email") as [->|?].
  { destruct (py_setitem2 _ _ _ _) eqn:E; [|discriminate]. intros [= <-]. by constructor. }
  destruct (String.eqb_spec q "contact_mobile") as [->|?].
  { destruct (py_setitem2 _ _ _ _) eqn:E; [|discriminate]. intros [= <-]. by constructor. }
  intros [= <-]. apply eff_ignored.
  rewrite !not_elem_of_cons. split_and!; try done.
  - intros ->. discriminate.
  - intros ->. discriminate.
  - intros ->. discriminate.
  - apply not_elem_of_nil.
Qed.
Lemma ctx_typed_insert (c : gmap string value) k v :
  field_ok k v = true -> ctx_typed c -> ctx_typed (<[k := v]> c).
Proof. intros. by apply map_Forall_insert_2. Qed.

Lemma ctx_typed_delete (c : gmap string value) k :
  ctx_typed c -> ctx_typed (delete k c).
Proof. intros. by apply map_Forall_delete. Qed.

Lemma ctx_typed_union (c1 c2 : gmap string value) :
  ctx_typed c1 -> ctx_typed c2 -> ctx_typed (c1 ∪ c2).
Proof.
  intros H1 H2 k v Hk. apply lookup_union_Some_raw in Hk as [Hk|[_ Hk]]; eauto.
Qed.

Lemma ctx_typed_lookup (c : gmap string value) k v :
  ctx_typed c -> c !! k = Some v -> field_ok k v = true.
Proof. intros H Hk. by apply H. Qed.

Lemma answer_effect_typed msg p c q r :
  ctx_typed c -> answer_effect msg p c q r -> ctx_typed (outcome_of r).1.2.
Proof.
  intros Hc H. destruct H; cbn [outcome_of fst snd]; try done;
    repeat (first [apply ctx_typed_insert | apply ctx_typed_delete]); try done.
  - unfold group_choice_single. repeat (destruct (contains _ _); try done).
  - destruct (contains _ _); done.
  - (* households_collected *)
    unfold dict_get_or in H2. rewrite lookup_insert_ne in H2 by done.
    destruct (c !! "households_collected") as [v|] eqn:E.
    + apply (ctx_typed_lookup _ _ _ Hc) in E. cbn in E. destruct v; try done.
      cbn in H2. by injection H2 as <-.
    + cbn in H2. by injection H2 as <-.
  - (* households_data *)
    apply (ctx_typed_lookup _ _ _ Hc) in H0. cbn in H0.
    destruct data as [| | | |l|]; try done. cbn in H1. injection H1 as <-.
    cbn. rewrite forallb_app, H0. reflexivity.
Qed.
Lemma templates_shape :
  travel_shape Travel.get_single_trip_template /\ travel_shape Travel.get_annual_trip_template.
Proof.
  split.
  - apply (travel_shape_intro false (VList []) VNone ∅ "" VNone VNone); try done.
    + right. by exists [].
    + by left.
  - apply (travel_shape_intro true VNone VNone ∅ "" VNone VNone); try done.
    + by left.
    + by left.
Qed.

Lemma addon_entry_ok msg : addon_ok (addon_entry msg).
Proof. by eexists. Qed.

Lemma set_zone a cc z ad cp e m v :
  py_setitem2 (travel_record a cc z ad cp e m) "travel" "zone" v
  = Ok (travel_record a cc v ad cp e m).
Proof. reflexivity. Qed.

Lemma set_country_code a cc z ad cp e m v :
  py_setitem2 (travel_record a cc z ad cp e m) "travel" "country_code" v
  = Ok (travel_record a v z ad cp e m).
Proof. reflexivity. Qed.

Lemma set_addon a cc z ad cp e m k v :
  py_setitem3 (travel_record a cc z ad cp e m) "travel" "selectedAddOns" k v
  = Ok (travel_record a cc z (<[k := v]> ad) cp e m).
Proof. reflexivity. Qed.

Lemma set_coupon_code a cc z ad cp e m v :
  py_setitem2 (travel_record a cc z ad cp e m) "promotion" "coupon_code" (VStr v)
  = Ok (travel_record a cc z ad v e m).
Proof. reflexivity. Qed.

Lemma set_email a cc z ad cp e m v :
  py_setitem2 (travel_record a cc z ad cp e m) "leads" "email" v
  = Ok (travel_record a cc z ad cp v m).
Proof. reflexivity. Qed.

Lemma set_contact_mobile a cc z ad cp e m v :
  py_setitem2 (travel_record a cc z ad cp e m) "leads" "contact_mobile" v
  = Ok (travel_record a cc z ad cp e v).
Proof. reflexivity. Qed.

Lemma answer_effect_shape msg p c q r :
  q = "policy_type" \/ travel_shape p ->
  answer_effect msg p c q r -> travel_shape (outcome_of r).1.1.
Proof.
  intros Hp H.
  destruct H; cbn [outcome_of fst snd];
    try apply templates_shape;
    (destruct Hp as [Hp|Hp]; [discriminate Hp || (by exfalso; subst; set_solver) |]);
    try done.
  all: destruct Hp as [annual cc z ad cp e m Hcc Hz Had He Hm].
  all: match goal with H : _ = Ok _ |- _ =>
         first [ rewrite set_zone in H | rewrite set_country_code in H
               | rewrite set_addon in H | rewrite set_coupon_code in H
               | rewrite set_email in H | rewrite set_contact_mobile in H ];
         injection H as <- end.
  all: constructor; try done.
  - destruct (contains _ _); [right; by left | right; by right].
  - right. by eexists.
  - apply map_Forall_insert_2; [apply addon_entry_ok | done].
  - apply map_Forall_insert_2; [apply addon_entry_ok | done].
  - apply map_Forall_insert_2; [apply addon_entry_ok | done].
Qed.


Lemma determine_next_question_record a cc z ad cp e m c :
  Travel.determine_next_question (travel_record a cc z ad cp e m) c
  = next_label c cc z ad e m.
Proof. reflexivity. Qed.

Lemma finalize_myself a cc z ad cp e m c :
  dict_get c "group_type_choice" = VStr "myself" ->
  Travel.finalize_travellers (travel_record a cc z ad cp e m) c
  = Ok (travel_final a cc (if a then VInt 1 else VNone) z "no" "no" "no" "no" ad
          (travellers_record (VInt 1) (VList [VInt 0]) (VList [VInt 1]) (VInt 1))
          None cp e m).
Proof. intros H. unfold Travel.finalize_travellers. rewrite H. reflexivity. Qed.

Lemma finalize_family a cc z ad cp e m c na nc :
  dict_get c "group_type_choice" = VStr "family" ->
  dict_get_or c "num_adults" (VInt 0) = VInt na ->
  dict_get_or c "num_children" (VInt 0) = VInt nc ->
  Travel.finalize_travellers (travel_record a cc z ad cp e m) c
  = Ok (travel_final a cc (if a then VInt 1 else VNone) z
          (if 0 <? nc then "yes" else "no") (if 1 <? na then "yes" else "no") "no" "no" ad
          (travellers_record (VInt (na + nc)) (VList [VInt nc]) (VList [VInt na]) (VInt 1))
          None cp e m).
Proof.
  intros H Ha Hc. unfold Travel.finalize_travellers. rewrite H, Ha, Hc.
  cbn [eq_str]. eqb_lit. cbv iota. cbn [py_add as_int]. res_simpl.
  unfold py_gt_int. cbn [as_int]. res_simpl.
  destruct (0 <? nc), (1 <? na); reflexivity.
Qed.

Lemma finalize_group_adults a cc z ad cp e m c n :
  dict_get c "group_type_choice" = VStr "group_adults" ->
  dict_get_or c "num_adults_group" (VInt 0) = VInt n ->
  Travel.finalize_travellers (travel_record a cc z ad cp e m) c
  = Ok (travel_final a cc (if a then VInt 1 else VNone) z "no" "no" "yes" "no" ad
          (travellers_record (VInt n) (VList (List.repeat (VInt 0) (Z.to_nat n)))
             (VList (List.repeat (VInt 1) (Z.to_nat n))) (VInt 1))
          None cp e m).
Proof.
  intros H Ha. unfold Travel.finalize_travellers. rewrite H, Ha.
  cbn [eq_str]. eqb_lit. cbv iota. unfold py_repeat. cbn [as_int]. res_simpl.
  reflexivity.
Qed.
Lemma household_ok_fields h :
  household_ok h = true ->
  exists d a c, h = VDict d /\ d !! "adults" = Some (VInt a) /\ d !! "children" = Some (VInt c).
Proof.
  destruct h as [| | | | |d]; try done. cbn.
  destruct (d !! "adults") as [[]|] eqn:Ea; try done.
  destruct (d !! "children") as [[]|] eqn:Ec; try done.
  intros _. by eexists _, _, _.
Qed.

Lemma sum_field_cons k (d : gmap string value) l :
  sum_field k (VDict d :: l) = int_of (default VNone (d !! k)) + sum_field k l.
Proof. reflexivity. Qed.

Lemma rmap_household_field k hs :
  k = "adults" \/ k = "children" ->
  forallb household_ok hs = true ->
  rmap (fun h => py_getitem h k) hs = Ok (household_field k <$> hs)
  /\ py_sum (household_field k <$> hs) = Ok (sum_field k hs)
  /\ forallb none_free (household_field k <$> hs) = true.
Proof.
  intros Hk.
  assert (Hfield : forall (d : gmap string value) a c, d !! "adults" = Some (VInt a) ->
            d !! "children" = Some (VInt c) -> exists n, d !! k = Some (VInt n)).
  { intros d a c Ha Hc. destruct Hk as [-> | ->]; eauto. }
  assert (Hsum : forall l acc, forallb household_ok l = true ->
            py_sum_from acc (household_field k <$> l) = Ok (acc + sum_field k l)).
  { induction l as [|h l IH]; intros acc Hl.
    - cbn. f_equal. lia.
    - cbn in Hl. apply andb_prop in Hl as [Hh Hl].
      apply household_ok_fields in Hh as (d & a & c & -> & Ha & Hc).
      destruct (Hfield d a c Ha Hc) as [n Hn].
      rewrite fmap_cons, sum_field_cons. cbn [household_field py_sum_from].
      rewrite Hn. change (default VNone (Some (VInt n))) with (VInt n).
      cbn [as_int int_of]. res_simpl.
      rewrite IH by done. f_equal. lia. }
  intros Hall. split_and!.
  - induction hs as [|h hs IH]; [done|].
    cbn in Hall. apply andb_prop in Hall as [Hh Hl].
    cbn [rmap]. apply household_ok_fields in Hh as (d & a & c & -> & Ha & Hc).
    destruct (Hfield d a c Ha Hc) as [n Hn].
    cbn [py_getitem]. rewrite Hn. res_simpl. rewrite IH by done.
    rewrite fmap_cons. cbn [household_field]. rewrite Hn. reflexivity.
  - unfold py_sum. rewrite Hsum by done. f_equal.
  - induction hs as [|h hs IH]; [done|].
    cbn in Hall. apply andb_prop in Hall as [Hh Hl].
    apply household_ok_fields in Hh as (d & a & c & -> & Ha & Hc).
    destruct (Hfield d a c Ha Hc) as [n Hn].
    rewrite fmap_cons. cbn [forallb household_field]. rewrite Hn. cbn. by apply IH.
Qed.

Lemma rmap_household_flags hs :
  forallb household_ok hs = true ->
  rmap Travel.household_flags hs = Ok (household_info_entry <$> hs).
Proof.
  induction hs as [|h hs IH]; [done|].
  intros Hall. cbn in Hall. apply andb_prop in Hall as [Hh Hl].
  cbn [rmap]. rewrite IH by done.
  apply household_ok_fields in Hh as (d & a & c & -> & Ha & Hc).
  rewrite fmap_cons.
  unfold Travel.household_flags, household_info_entry. cbn [py_getitem household_field].
  rewrite Ha, Hc. reflexivity.
Qed.

Lemma finalize_group_family a cc z ad cp e m c hs :
  dict_get c "group_type_choice" = VStr "group_family" ->
  dict_get_or c "households_data" (VList []) = VList hs ->
  forallb household_ok hs = true ->
  Travel.finalize_travellers (travel_record a cc z ad cp e m) c
  = Ok (travel_final a cc (if a then VInt 1 else VNone) z "no" "no" "no" "yes" ad
          (travellers_record (VInt (sum_field "adults" hs + sum_field "children" hs))
             (VList (household_field "children" <$> hs))
             (VList (household_field "adults" <$> hs))
             (VInt (Z.of_nat (length hs))))
          (Some (VList (household_info_entry <$> hs))) cp e m).
Proof.
  intros H Hd Hall. unfold Travel.finalize_travellers. rewrite H, Hd.
  cbn [eq_str]. eqb_lit. cbv iota. cbn [py_iter]. res_simpl.
  destruct (rmap_household_field "adults" hs) as (-> & Hs1 & _); [by left|done|].
  destruct (rmap_household_field "children" hs) as (-> & Hs2 & _); [by right|done|].
  cbn [rbind]. rewrite Hs1, Hs2. cbn [rbind].
  rewrite rmap_household_flags by done.
  reflexivity.
Qed.
Lemma set_number_of_days_final a cc nd z wc ws wga wgh ad tr hi cp e m v :
  py_setitem2 (travel_final a cc nd z wc ws wga wgh ad tr hi cp e m)
    "travel" "number_of_days" v
  = Ok (travel_final a cc v z wc ws wga wgh ad tr hi cp e m).
Proof. destruct hi; reflexivity. Qed.

Lemma travel_record_final a cc z ad cp e m :
  travel_record a cc z ad cp e m
  = travel_final a cc (if a then VInt 1 else VNone) z "no" "no" "no" "no" ad
      (travellers_record VNone (VList []) (VList []) (VInt 1)) None cp e m.
Proof. reflexivity. Qed.

Lemma typed_int (c : gmap string value) k :
  ctx_typed c ->
  k ∈ ["num_adults"; "num_children"; "num_adults_group"; "num_households";
       "households_collected"; "households_to_collect"] ->
  exists n, dict_get_or c k (VInt 0) = VInt n
            /\ (dict_get c k = VNone \/ dict_get c k = VInt n).
Proof.
  intros Hc Hk. unfold dict_get_or, dict_get.
  destruct (c !! k) as [v|] eqn:E; [|exists 0; split; [done|by left]].
  apply Hc in E.
  assert (is_int v = true) as Hv.
  { repeat (apply elem_of_cons in Hk as [->|Hk]; [exact E|]). by apply elem_of_nil in Hk. }
  destruct v; try done. eexists; split; [done|by right].
Qed.

Lemma typed_group (c : gmap string value) :
  ctx_typed c ->
  let g := dict_get c "group_type_choice" in
  g = VNone \/ g = VStr "myself" \/ g = VStr "family"
  \/ g = VStr "group_adults" \/ g = VStr "group_family".
Proof.
  intros Hc. unfold dict_get. cbn zeta.
  destruct (c !! "group_type_choice") as [v|] eqn:E; [|by left].
  apply Hc in E. cbn in E. destruct v as [| | |s| |]; try done. cbn in E.
  destruct (String.eqb_spec s "myself") as [Heq|]; [subst s; cbn; auto|].
  destruct (String.eqb_spec s "family") as [Heq|]; [subst s; cbn; auto|].
  destruct (String.eqb_spec s "group_adults") as [Heq|]; [subst s; cbn; auto 6|].
  destruct (String.eqb_spec s "group_family") as [Heq|]; [subst s; cbn; auto 6|done].
Qed.

Lemma typed_policy (c : gmap string value) :
  ctx_typed c ->
  let p := dict_get c "policy_type_choice" in
  p = VNone \/ p = VStr "annual" \/ p = VStr "single".
Proof.
  intros Hc. unfold dict_get. cbn zeta.
  destruct (c !! "policy_type_choice") as [v|] eqn:E; [|by left].
  apply Hc in E. cbn in E. destruct v as [| | |s| |]; try done. cbn in E.
  destruct (String.eqb_spec s "annual") as [Heq|]; [subst s; cbn; auto|].
  destruct (String.eqb_spec s "single") as [Heq|]; [subst s; cbn; auto|done].
Qed.

Lemma typed_households (c : gmap string value) :
  ctx_typed c ->
  exists hs, dict_get_or c "households_data" (VList []) = VList hs
             /\ forallb household_ok hs = true.
Proof.
  intros Hc. unfold dict_get_or.
  destruct (c !! "households_data") as [v|] eqn:E; [|by exists []].
  apply Hc in E. cbn in E. destruct v; try done. by eexists.
Qed.

Lemma typed_date (c : gmap string value) k :
  ctx_typed c -> k = "start_date" \/ k = "end_date" ->
  dict_get c k = VNone \/ exists s, c !! k = Some (VStr s).
Proof.
  intros Hc Hk. unfold dict_get.
  destruct (c !! k) as [v|] eqn:E; [|by left].
  apply Hc in E. right.
  destruct Hk as [-> | ->]; cbn in E; destruct v; try done; by eexists.
Qed.

Lemma none_free_repeat v n : none_free v = true -> forallb none_free (List.repeat v n) = true.
Proof. intros H. induction n; [done|]. cbn. by rewrite H. Qed.

Lemma none_free_infos hs : forallb none_free (household_info_entry <$> hs) = true.
Proof. induction hs as [|h hs IH]; [done|]. rewrite fmap_cons. cbn [forallb]. rewrite IH. reflexivity. Qed.

Lemma finalize_travellers_result a cc z ad cp e m c :
  ctx_typed c ->
  exists wc ws wga wgh total child adult group hi,
    Travel.finalize_travellers (travel_record a cc z ad cp e m) c
    = Ok (travel_final a cc (if a then VInt 1 else VNone) z wc ws wga wgh ad
            (travellers_record total child adult group) hi cp e m)
    /\ none_free child = true /\ none_free adult = true /\ none_free group = true
    /\ (truthy (dict_get c "group_type_choice") = true -> none_free total = true)
    /\ (forall v, hi = Some v -> none_free v = true).
Proof.
  intros Hc.
  destruct (typed_group c Hc) as [Hg|[Hg|[Hg|[Hg|Hg]]]].
  - exists "no", "no", "no", "no", VNone, (VList []), (VList []), (VInt 1), None.
    split; [|split_and!; try done; by rewrite Hg].
    unfold Travel.finalize_travellers. rewrite Hg. reflexivity.
  - eexists _, _, _, _, _, _, _, _, _. split; [by apply finalize_myself|].
    split_and!; done.
  - destruct (typed_int c "num_adults" Hc) as (na & Hna & _); [set_solver|].
    destruct (typed_int c "num_children" Hc) as (nc & Hnc & _); [set_solver|].
    eexists _, _, _, _, _, _, _, _, _. split; [by apply finalize_family|].
    split_and!; done.
  - destruct (typed_int c "num_adults_group" Hc) as (n & Hn & _); [set_solver|].
    eexists _, _, _, _, _, _, _, _, _. split; [by apply finalize_group_adults|].
    split_and!; try done; cbn [none_free]; by apply none_free_repeat.
  - destruct (typed_households c Hc) as (hs & Hhs & Hok).
    eexists _, _, _, _, _, _, _, _, _. split; [by apply finalize_group_family|].
    split_and!; try done; cbn [none_free].
    + by apply rmap_household_field; [right|].
    + by apply rmap_household_field; [left|].
    + intros v [= <-]. cbn [none_free]. apply none_free_infos.
Qed.
Lemma days_before_year_succ y :
  days_before_year (y + 1) = days_before_year y + (if is_leap y then 366 else 365).
Proof.
  unfold days_before_year, is_leap.
  replace (y + 1 - 1) with y by lia.
  pose proof (Z.div_mod y 4 ltac:(lia)).
  pose proof (Z.div_mod y 100 ltac:(lia)).
  pose proof (Z.div_mod y 400 ltac:(lia)).
  pose proof (Z.div_mod (y-1) 4 ltac:(lia)).
  pose proof (Z.div_mod (y-1) 100 ltac:(lia)).
  pose proof (Z.div_mod (y-1) 400 ltac:(lia)).
  pose proof (Z.mod_pos_bound y 4 ltac:(lia)).
  pose proof (Z.mod_pos_bound y 100 ltac:(lia)).
  pose proof (Z.mod_pos_bound y 400 ltac:(lia)).
  pose proof (Z.mod_pos_bound (y-1) 4 ltac:(lia)).
  pose proof (Z.mod_pos_bound (y-1) 100 ltac:(lia)).
  pose proof (Z.mod_pos_bound (y-1) 400 ltac:(lia)).
  destruct (Z.eqb_spec (y mod 4) 0), (Z.eqb_spec (y mod 100) 0), (Z.eqb_spec (y mod 400) 0);
    cbn; lia.
Qed.

Lemma toordinal_next_day d :
  valid_date d = true -> toordinal (next_day d) = toordinal d + 1.
Proof.
  destruct d as [y m dd]. unfold valid_date, next_day, toordinal. cbn [year month day].
  intros H. repeat (apply andb_prop in H as [H ?]).
  assert (m = 1 \/ m = 2 \/ m = 3 \/ m = 4 \/ m = 5 \/ m = 6 \/ m = 7 \/ m = 8 \/ m = 9
          \/ m = 10 \/ m = 11 \/ m = 12) as Hm by lia.
  destruct (Z.ltb_spec dd (days_in_month y m)); cbn [year month day]; [lia|].
  assert (dd = days_in_month y m) as -> by lia.
  destruct (Z.ltb_spec m 12); cbn [year month day].
  - unfold days_in_month, days_before_month.
    destruct Hm as [-> |[-> |[-> |[-> |[-> |[-> |[-> |[-> |[-> |[-> |[-> | ->]]]]]]]]]]];
      match goal with |- context [Z.pos ?a + 1] =>
        let r := eval vm_compute in (Z.pos a + 1) in change (Z.pos a + 1) with r end;
      destruct (is_leap y); cbn; lia.
  - assert (m = 12) as -> by lia.
    rewrite days_before_year_succ. unfold days_in_month, days_before_month.
    destruct (is_leap y); cbn; lia.
Qed.

Lemma ctx_typed_literal (l : list (string * value)) :
  forallb (fun kv => field_ok kv.1 kv.2) l = true -> ctx_typed (mkdict l).
Proof.
  intros H k v Hk. apply elem_of_list_to_map_2 in Hk.
  rewrite forallb_forall in H. apply list_elem_of_In in Hk. apply (H (k, v) Hk).
Qed.


(** Case analysis on every test and every intermediate result. *)
Ltac branch_all :=
  repeat first
    [ progress res_simpl
    | case_match
    | match goal with
      | |- context [rbind _ ?r] =>
          lazymatch r with
          | Ok _ => fail | Raise _ => fail | rbind _ _ => fail
          | (if _ then _ else _) => fail | _ => idtac
          end;
          destruct r eqn:?; cbn [rbind]
      end ].


(** Both templates start with an empty coupon code, and the answer
    processor only ever writes a string there: the resolver never finds the
    coupon code unset. *)
Lemma travel_never_asks_coupon payload context :
  travel_shape payload ->
  Travel.determine_next_question payload context <> Ok "coupon_code".
Proof.
  intros [a cc z ad cp e m _ _ _ _ _]. rewrite determine_next_question_record.
  unfold next_label.
  branch_all; discriminate.
Qed.
Lemma question_text_plain l t c :
  Travel.QUESTION_MAP !! l = Some t -> Travel.question_text l c = Ok t.
Proof.
  intros H. unfold Travel.question_text. rewrite H.
  assert (Hno : contains "#num" t = false).
  { revert l t H.
    change (map_Forall (fun _ t => contains "#num" t = false) Travel.QUESTION_MAP).
    apply map_Forall_to_list. vm_compute map_to_list.
    repeat (apply Forall_cons; split; [reflexivity|]). apply Forall_nil_2. }
  by rewrite Hno.
Qed.

Lemma typed_lt c :
  ctx_typed c ->
  exists b, py_lt (dict_get_or c "households_collected" (VInt 0))
                  (dict_get_or c "households_to_collect" (VInt 0)) = Ok b.
Proof.
  intros Hc.
  destruct (typed_int c "households_collected" Hc) as (n1 & -> & _); [set_solver|].
  destruct (typed_int c "households_to_collect" Hc) as (n2 & -> & _); [set_solver|].
  by eexists.
Qed.

Lemma next_label_total c cc z ad e m :
  ctx_typed c ->
  exists l, next_label c cc z ad e m = Ok l
            /\ (l = "DONE" \/ is_Some (Travel.QUESTION_MAP !! l)).
Proof.
  intros Hc. destruct (typed_lt c Hc) as [b Hb].
  unfold next_label. rewrite Hb.
  branch_all; eexists; (split; [reflexivity|]); try (by left); right; by eexists.
Qed.
Lemma next_label_done c cc z ad e m :
  next_label c cc z ad e m = Ok "DONE" -> truthy m = true.
Proof.
  unfold next_label. branch_all; try discriminate.
  all: intros _; by destruct (truthy m).
Qed.

Lemma next_label_mobile c cc z ad e m m' :
  next_label c cc z ad e m = Ok "contact_mobile" ->
  next_label c cc z ad e m'
  = Ok (if truthy m' then "DONE" else "contact_mobile").
Proof.
  unfold next_label. branch_all; try discriminate.
  all: intros _; by destruct (truthy m').
Qed.

Lemma next_label_marker c cc z ad e m v :
  next_label (<["current_question_key" := v]> c) cc z ad e m = next_label c cc z ad e m.
Proof. unfold next_label. dict_simpl. reflexivity. Qed.

Lemma mobile_of_record a cc z ad cp e m : mobile_of (travel_record a cc z ad cp e m) = m.
Proof. reflexivity. Qed.
Lemma typed_no_session_id (c : gmap string value) :
  ctx_typed c -> c !! "session_id" = None.
Proof.
  intros Hc. destruct (c !! "session_id") eqn:E; [|done]. by apply Hc in E.
Qed.

Lemma insert_union_self (c : gmap string value) k v :
  <[k := v]> c ∪ c = <[k := v]> c.
Proof. by rewrite <- insert_union_l, map_union_idemp. Qed.

Lemma answer_effect_union msg p c q r :
  answer_effect msg p c q r -> (outcome_of r).2 = None ->
  (outcome_of r).1.2 ∪ c = (outcome_of r).1.2.
Proof.
  intros H. destruct H; cbn [outcome_of fst snd]; try discriminate; intros _;
    rewrite ?map_union_idemp; try done.
  all: try apply insert_union_self.
  - rewrite <- !insert_union_l. by rewrite map_union_idemp.
  - rewrite <- !insert_union_l. by rewrite map_union_idemp.
Qed.

Lemma answer_effect_mobile msg p c q r :
  travel_shape p -> answer_effect msg p c q r ->
  q <> "contact_mobile" -> q <> "policy_type" ->
  mobile_of (outcome_of r).1.1 = mobile_of p.
Proof.
  intros Hp H Hq1 Hq2.
  destruct H; cbn [outcome_of fst snd]; try done.
  all: destruct Hp as [annual cc z ad cp e m Hcc Hz Had He Hm].
  all: match goal with H : _ = Ok _ |- _ =>
         first [ rewrite set_zone in H | rewrite set_country_code in H
               | rewrite set_addon in H | rewrite set_coupon_code in H
               | rewrite set_email in H ];
         injection H as <- end.
  all: by rewrite !mobile_of_record.
Qed.

Lemma answer_effect_mobile_set msg p c r :
  travel_shape p -> answer_effect msg p c "contact_mobile" r ->
  exists a cc z ad cp e m,
    p = travel_record a cc z ad cp e m
    /\ r = inr (travel_record a cc z ad cp e (VStr (strip msg)), c, None).
Proof.
  intros Hp H. inversion H; subst.
  - destruct Hp as [annual cc z ad cp e m Hcc Hz Had He Hm].
    rewrite set_contact_mobile in H0. injection H0 as <-.
    by eexists _, _, _, _, _, _, _.
  - exfalso. set_solver.
Qed.

Lemma answer_effect_policy msg p c r :
  answer_effect msg p c "policy_type" r ->
  mobile_of (outcome_of r).1.1 = VNone /\ (outcome_of r).2 = None.
Proof.
  intros H. inversion H; subst; cbn; try done. exfalso. set_solver.
Qed.
Lemma travel_respond_eq now sid a cc z ad cp e m c' verr s1 :
  Travel.respond now sid (travel_record a cc z ad cp e m, c', verr) (Some s1)
  = if is_error verr then (Ok (VStr (default "" verr)), Some s1)
    else match next_label c' cc z ad e m with
         | Raise err => (Raise err, Some s1)
         | Ok l =>
             if (l =? "DONE")%string then
               match Travel.finalize_payload (travel_record a cc z ad cp e m) c' with
               | Raise err => (Raise err, Some s1)
               | Ok final =>
                   (Ok (VStr Travel.MSG_DONE), Some (done_session now "payload" final s1))
               end
             else
               match Travel.question_text l c' with
               | Raise err => (Raise err, Some s1)
               | Ok text =>
                   (Ok (VStr text),
                    Some (asked_session now "payload" l (travel_record a cc z ad cp e m) s1))
               end
         end.
Proof.
  unfold Travel.respond. destruct (is_error verr); [reflexivity|].
  rewrite M_bind_eq. unfold lift. rewrite determine_next_question_record.
  destruct (next_label c' cc z ad e m) as [l|err]; [|reflexivity].
  destruct (l =? "DONE")%string.
  - rewrite M_bind_eq.
    destruct (Travel.finalize_payload _ _) as [final|err]; [|reflexivity].
    reflexivity.
  - rewrite M_bind_eq.
    destruct (Travel.question_text l c') as [text|err]; [|reflexivity].
    reflexivity.
Qed.
Lemma travel_agent_start now sid msg hist s :
  truthy (marker_of s) = false ->
  Travel.run_travel_payload_agent now sid msg hist (Some s)
  = (Ok (VStr "Are you looking for a **Single Trip** or an **Annual Multi-Trip** policy?"),
     Some (SessionManager.with_last_active now
             (SessionManager.with_conversation_context
                ({["current_question_key" := VStr "policy_type"]} ∪ conversation_context s) s))).
Proof.
  intros H. unfold Travel.run_travel_payload_agent.
  rewrite M_bind_eq. cbn [SessionManager.get_session].
  unfold marker_of in H. rewrite H. reflexivity.
Qed.

Lemma travel_agent_eq now sid msg hist s :
  truthy (marker_of s) = true ->
  Travel.run_travel_payload_agent now sid msg hist (Some s)
  = match Travel.apply_answer msg (travel_payload_of s) (conversation_context s) with
    | Raise err => (Raise err, Some s)
    | Ok (inl out) => Travel.respond now sid out (Some s)
    | Ok (inr out) =>
        match out.1.2 !! "session_id" with
        | Some _ => (Raise TypeError, Some s)
        | None =>
            Travel.respond now sid out
              (Some (SessionManager.with_last_active now
                       (SessionManager.with_conversation_context
                          (out.1.2 ∪ conversation_context s) s)))
        end
    end.
Proof.
  intros H. unfold Travel.run_travel_payload_agent.
  rewrite M_bind_eq. cbn [SessionManager.get_session].
  unfold marker_of in H. rewrite H. cbn [negb].
  rewrite M_bind_eq. unfold Travel.process_user_answer. rewrite M_bind_eq.
  unfold lift, travel_payload_of.
  destruct (Travel.apply_answer _ _ _) as [[out|out]|err]; [reflexivity| |reflexivity].
  rewrite M_bind_eq. unfold SessionManager.update_conversation_context.
  destruct (out.1.2 !! "session_id"); reflexivity.
Qed.
Lemma with_context_same s :
  SessionManager.with_conversation_context (conversation_context s) s = s.
Proof. by destruct s. Qed.

Lemma answer_effect_errors msg p c q r :
  answer_effect msg p c q r ->
  match r with
  | inl (_, _, v) => is_error v = true /\ q = "destination"
  | inr (p', c', v) =>
      v = None
      \/ (is_error v = true /\ p' = p /\ q = "num_children"
          /\ c' !! "current_question_key" = Some (VStr "num_adults"))
  end.
Proof.
  intros H. destruct H; try (by left); try done.
  right. split_and!; try done. by rewrite lookup_insert_eq.
Qed.

Lemma marker_union_singleton (c : gmap string value) v :
  dict_get ({["current_question_key" := v]} ∪ c) "current_question_key" = v.
Proof.
  unfold dict_get. by rewrite <- insert_union_singleton_l, lookup_insert_eq.
Qed.

Lemma ctx_typed_marker (c : gmap string value) v :
  ctx_typed c -> ctx_typed ({["current_question_key" := v]} ∪ c).
Proof.
  intros H. rewrite <- insert_union_singleton_l. by apply ctx_typed_insert.
Qed.
Lemma travel_agent_step now sid msg hist s :
  ctx_typed (conversation_context s) -> travel_collecting s ->
  travel_step_ok now s (Travel.run_travel_payload_agent now sid msg hist (Some s)).
Proof.
  intros Hc Hcol.
  destruct (truthy (marker_of s)) eqn:Hm.
  2:{ rewrite travel_agent_start by done. cbn. split_and!; try done.
      - by apply ctx_typed_marker.
      - left. split; [done|]. right. left. unfold marker_of. cbn.
        apply marker_union_singleton. }
  rewrite travel_agent_eq by done.
  destruct (Travel.apply_answer msg (travel_payload_of s) (conversation_context s))
    as [r|err] eqn:Happ; [|cbn; by left].
  apply apply_answer_inv in Happ as (q & Hq & Heff).
  assert (Hshape : q = "policy_type" \/
            (travel_shape (travel_payload_of s)
             /\ truthy (mobile_of (travel_payload_of s)) = false
             /\ (q = "contact_mobile" ->
                 Travel.determine_next_question (travel_payload_of s)
                   (conversation_context s) = Ok "contact_mobile"))).
  { destruct Hcol as [H|[H|(H1 & H2 & H3)]].
    - congruence.
    - left. unfold marker_of in H. congruence.
    - right. split_and!; try done. intros ->. apply H3. exact Hq. }
  pose proof (answer_effect_typed _ _ _ _ _ Hc Heff) as Hc'.
  pose proof (answer_effect_errors _ _ _ _ _ Heff) as Herr.
  assert (Hp' : travel_shape (outcome_of r).1.1).
  { eapply answer_effect_shape; [|exact Heff]. destruct Hshape as [?|[? _]]; auto. }
  destruct r as [[[p' c'] verr]|[[p' c'] verr]]; cbn [outcome_of fst snd] in *.
  - (* early return *)
    destruct Herr as [Herr _]. unfold Travel.respond. rewrite Herr. cbn.
    split_and!; try done. left. done.
  - rewrite (typed_no_session_id _ Hc').
    set (s1 := SessionManager.with_last_active now
                 (SessionManager.with_conversation_context (c' ∪ conversation_context s) s)).
    assert (Hc1 : ctx_typed (conversation_context s1)) by (by apply ctx_typed_union).
    destruct Hp' as [a cc z ad cp e m Hcc Hz Had He Hmo].
    rewrite travel_respond_eq.
    destruct Herr as [-> | (Herr & -> & -> & Hmark)].
    2:{ (* over the limit *)
        rewrite Herr. cbn. split_and!; try done. left. split; [done|].
        destruct Hshape as [?|(Hs1 & Hs2 & _)]; [done|].
        right. right. unfold travel_payload_of, marker_of in *. cbn.
        split_and!; try done.
        unfold dict_get. rewrite (lookup_union_Some_l _ _ _ _ Hmark). done. }
    cbn [is_error].
    pose proof (answer_effect_union _ _ _ _ _ Heff eq_refl) as Hun.
    cbn [outcome_of fst snd] in Hun.
    destruct (next_label_total c' cc z ad e m Hc') as (l & Hl & Hlab).
    rewrite Hl.
    (* the mobile number of the new record is set only by its own answer *)
    assert (Hmob : truthy m = true ->
              q = "contact_mobile" /\ c' = conversation_context s
              /\ next_label c' cc z ad e m = Ok "DONE").
    { intros Ht.
      destruct Hshape as [-> | (Hs1 & Hs2 & Hs3)].
      { apply answer_effect_policy in Heff as [Heff _]. cbn [outcome_of fst snd] in Heff.
        rewrite mobile_of_record in Heff. subst m. done. }
      destruct (String.eqb_spec q "contact_mobile") as [-> | Hne].
      - apply answer_effect_mobile_set in Heff as (a0 & cc0 & z0 & ad0 & cp0 & e0 & m0 & Hp0 & Hr);
          [|done].
        assert (Hrec' : travel_record a cc z ad cp e m
                        = travel_record a0 cc0 z0 ad0 cp0 e0 (VStr (strip msg)))
          by congruence.
        assert (c' = conversation_context s) as -> by congruence.
        clear Hr. split_and!; try done.
        rewrite Hp0 in Hs3. rewrite determine_next_question_record in Hs3.
        specialize (Hs3 eq_refl).
        assert (Hnl : Travel.determine_next_question (travel_record a cc z ad cp e m)
                        (conversation_context s)
                      = Travel.determine_next_question
                          (travel_record a0 cc0 z0 ad0 cp0 e0 (VStr (strip msg)))
                          (conversation_context s)) by (by rewrite Hrec').
        rewrite !determine_next_question_record in Hnl. rewrite Hnl.
        rewrite (next_label_mobile _ _ _ _ _ _ (VStr (strip msg)) Hs3).
        assert (mobile_of (travel_record a cc z ad cp e m)
                = mobile_of (travel_record a0 cc0 z0 ad0 cp0 e0 (VStr (strip msg))))
          as Hmm by (by rewrite Hrec').
        rewrite !mobile_of_record in Hmm. subst m. by rewrite Ht.
      - destruct (String.eqb_spec q "policy_type") as [-> | Hne2].
        { apply answer_effect_policy in Heff as [Heff _]. cbn [outcome_of fst snd] in Heff.
          rewrite mobile_of_record in Heff. subst m. done. }
        pose proof (answer_effect_mobile _ _ _ _ _ Hs1 Heff Hne Hne2) as Hsame.
        cbn [outcome_of fst snd] in Hsame. rewrite mobile_of_record in Hsame. congruence. }
    destruct (String.eqb_spec l "DONE") as [-> | Hnd].
    + (* finalization *)
      pose proof (next_label_done _ _ _ _ _ _ Hl) as Ht.
      destruct (Hmob Ht) as (_ & -> & _).
      destruct (Travel.finalize_payload _ _) as [final|err]; cbn.
      * split_and!; try done.
        -- by apply ctx_typed_marker.
        -- right. split; [done|]. unfold marker_of. cbn.
           by rewrite marker_union_singleton.
      * right. subst s1. rewrite map_union_idemp, with_context_same. done.
    + destruct Hlab as [?|[t Ht]]; [contradiction|].
      rewrite (question_text_plain _ _ _ Ht). cbn [travel_step_ok].
      split_and!; try done.
      * by apply ctx_typed_marker.
      * left. split; [done|]. right. right.
        unfold travel_payload_of, marker_of. cbn.
        rewrite marker_union_singleton. unfold dict_get at 1 2. rewrite lookup_insert_eq. cbn.
        split_and!.
        -- by constructor.
        -- rewrite mobile_of_record. destruct (truthy m) eqn:Ht'; [|done].
           destruct (Hmob eq_refl) as (_ & _ & Hd). congruence.
        -- intros [= ->]. unfold dict_get. rewrite lookup_insert_eq. cbn.
           rewrite determine_next_question_record.
           rewrite <- insert_union_singleton_l, next_label_marker, Hun. done.
Qed.
Lemma family_template_record :
  Family.get_family_payload_template
  = family_record VNone VNone VNone false false VNone VNone VNone.
Proof. reflexivity. Qed.

Lemma family_get_fields i p pr wc ws e m ins :
  py_get (family_record i p pr wc ws e m ins) "premiumType" VNone = Ok p
  /\ py_get (family_record i p pr wc ws e m ins) "policyInceptionDate" VNone = Ok i
  /\ py_get (family_record i p pr wc ws e m ins) "promoCode" VNone = Ok pr
  /\ Family.internal_field (family_record i p pr wc ws e m ins) "insured_party" = Ok ins
  /\ Family.internal_field (family_record i p pr wc ws e m ins) "email" = Ok e
  /\ Family.internal_field (family_record i p pr wc ws e m ins) "contact_mobile" = Ok m.
Proof. split_and!; reflexivity. Qed.

Lemma family_next_record i p pr wc ws e m ins :
  Family.determine_next_question (family_record i p pr wc ws e m ins)
  = Ok (family_next i p pr e m ins).
Proof.
  destruct (family_get_fields i p pr wc ws e m ins) as (H1 & H2 & H3 & H4 & H5 & H6).
  unfold Family.determine_next_question, family_next.
  rewrite H1. res_simpl. destruct (is_none p); [reflexivity|].
  rewrite H4. cbn [rbind]. destruct (is_none ins); [reflexivity|].
  rewrite H2. cbn [rbind]. destruct (is_none i); [reflexivity|].
  rewrite H5. cbn [rbind]. destruct (is_none e); [reflexivity|].
  rewrite H6. cbn [rbind]. destruct (is_none m); [reflexivity|].
  rewrite H3. cbn [rbind]. destruct (is_none pr); reflexivity.
Qed.

Lemma family_finalize_record i p pr wc ws e m ins :
  Family.finalize_payload (family_record i p pr wc ws e m ins)
  = Ok (VDict (family_final i p pr wc ws)).
Proof. reflexivity. Qed.

Lemma family_next_label i p pr e m ins :
  family_next i p pr e m ins = "DONE"
  \/ is_Some (Family.QUESTION_MAP !! family_next i p pr e m ins).
Proof.
  unfold family_next.
  repeat (case_match; [right; by eexists|]). by left.
Qed.

Lemma strptime_raises_value_error s err :
  strptime_ymd s = Raise err -> err = ValueError.
Proof.
  unfold strptime_ymd. repeat case_match; congruence.
Qed.

Lemma family_set_fields i p pr wc ws e m ins v wc' ws' :
  py_setitem (family_record i p pr wc ws e m ins) "premiumType" v
    = Ok (family_record i v pr wc ws e m ins)
  /\ py_setitem (family_record i p pr wc ws e m ins) "policyInceptionDate" v
    = Ok (family_record v p pr wc ws e m ins)
  /\ py_setitem (family_record i p pr wc ws e m ins) "promoCode" v
    = Ok (family_record i p v wc ws e m ins)
  /\ py_setitem2 (family_record i p pr wc ws e m ins) "_internal" "email" v
    = Ok (family_record i p pr wc ws v m ins)
  /\ py_setitem2 (family_record i p pr wc ws e m ins) "_internal" "contact_mobile" v
    = Ok (family_record i p pr wc ws e v ins)
  /\ py_setitem2 (family_record i p pr wc ws e m ins) "_internal" "insured_party" v
    = Ok (family_record i p pr wc ws e m v)
  /\ Family.set_flags (family_record i p pr wc ws e m ins) wc' ws'
    = Ok (family_record i p pr wc' ws' e m ins).
Proof. split_and!; reflexivity. Qed.

Lemma family_answer_shape msg p c :
  family_shape p ->
  exists p' verr,
    Family.process_user_answer msg p c = Ok (p', c, verr) /\ family_shape p'.
Proof.
  intros [i pr po wc ws e m ins Hi Hpr Hpo He Hm Hins].
  assert (Hsame : family_shape (family_record i pr po wc ws e m ins))
    by (constructor; assumption).
  unfold Family.process_user_answer.
  destruct (dict_get c "current_question_key") as [| | |q| |]; cbn [eq_str];
    try (eexists _, _; split; [reflexivity|exact Hsame]).
  destruct (String.eqb_spec q "premiumType") as [-> |_].
  { destruct (family_set_fields i pr po wc ws e m ins
                (VStr (if contains "annual" (lower (strip msg)) then "annual" else "monthly"))
                wc ws) as (-> & _).
    eexists _, _. split; [reflexivity|]. constructor; assumption || reflexivity. }
  destruct (String.eqb_spec q "insured_party") as [-> |_].
  { destruct (family_set_fields i pr po wc ws e m ins (VStr (lower (strip msg))) wc ws)
      as (_ & _ & _ & _ & _ & -> & _).
    res_simpl.
    destruct (contains "myself with child" _); [|destruct (contains "family" _)].
    - destruct (family_set_fields i pr po wc ws e m (VStr (lower (strip msg))) VNone true false)
        as (_ & _ & _ & _ & _ & _ & ->).
      eexists _, _. split; [reflexivity|]. constructor; assumption || reflexivity.
    - destruct (family_set_fields i pr po wc ws e m (VStr (lower (strip msg))) VNone true true)
        as (_ & _ & _ & _ & _ & _ & ->).
      eexists _, _. split; [reflexivity|]. constructor; assumption || reflexivity.
    - destruct (family_set_fields i pr po wc ws e m (VStr (lower (strip msg))) VNone false false)
        as (_ & _ & _ & _ & _ & _ & ->).
      eexists _, _. split; [reflexivity|]. constructor; assumption || reflexivity. }
  destruct (String.eqb_spec q "policyInceptionDate") as [-> |_].
  { destruct (strptime_ymd _) as [d|err] eqn:E;
      [|apply strptime_raises_value_error in E as ->].
    - destruct (family_set_fields i pr po wc ws e m ins
                  (VStr (replace "/" "-" (lower (strip msg)))) wc ws) as (_ & -> & _).
      eexists _, _. split; [reflexivity|]. constructor; assumption || reflexivity.
    - eexists _, _. split; [reflexivity|exact Hsame]. }
  destruct (String.eqb_spec q "email") as [-> |_].
  { destruct (family_set_fields i pr po wc ws e m ins (VStr (strip msg)) wc ws)
      as (_ & _ & _ & -> & _).
    eexists _, _. split; [reflexivity|]. constructor; assumption || reflexivity. }
  destruct (String.eqb_spec q "contact_mobile") as [-> |_].
  { destruct (family_set_fields i pr po wc ws e m ins (VStr (strip msg)) wc ws)
      as (_ & _ & _ & _ & -> & _).
    eexists _, _. split; [reflexivity|]. constructor; assumption || reflexivity. }
  destruct (String.eqb_spec q "promoCode") as [-> |_].
  { destruct (family_set_fields i pr po wc ws e m ins
                (VStr (if (lower (strip msg) =? "no")%string then "" else strip msg)) wc ws)
      as (_ & _ & -> & _).
    eexists _, _. split; [reflexivity|]. constructor; assumption || reflexivity. }
  eexists _, _. split; [reflexivity|exact Hsame].
Qed.
Lemma family_respond_eq now sid i p pr wc ws e m ins c verr s1 :
  Family.respond now sid (family_record i p pr wc ws e m ins, c, verr) (Some s1)
  = if is_error verr then (Ok (VStr (default "" verr)), Some s1)
    else if (family_next i p pr e m ins =? "DONE")%string then
      (Ok (VStr Family.MSG_DONE),
       Some (done_session now "family_payload" (VDict (family_final i p pr wc ws)) s1))
    else
      match Family.QUESTION_MAP !! family_next i p pr e m ins with
      | Some text =>
          (Ok (VStr text),
           Some (asked_session now "family_payload" (family_next i p pr e m ins)
                   (family_record i p pr wc ws e m ins) s1))
      | None => (Raise KeyError, Some s1)
      end.
Proof.
  unfold Family.respond. destruct (is_error verr); [reflexivity|].
  rewrite M_bind_eq. unfold lift. rewrite family_next_record.
  destruct (family_next i p pr e m ins =? "DONE")%string.
  - rewrite M_bind_eq. rewrite family_finalize_record. reflexivity.
  - rewrite M_bind_eq.
    destruct (Family.QUESTION_MAP !! family_next i p pr e m ins); reflexivity.
Qed.

Lemma family_agent_step now sid msg hist s :
  ctx_typed (conversation_context s) -> family_collecting s ->
  family_step_ok s (Family.run_family_payload_agent now sid msg hist (Some s)).
Proof.
  intros Hc Hcol.
  unfold Family.run_family_payload_agent.
  rewrite M_bind_eq. cbn [SessionManager.get_session].
  set (fresh := negb (truthy (dict_get (conversation_context s) "current_question_key"))).
  set (payload1 := if fresh then Family.get_family_payload_template
                   else dict_get (collected_info s) "family_payload").
  assert (Hp1 : family_shape payload1).
  { subst payload1 fresh. destruct Hcol as [H|H]; unfold marker_of in H.
    - rewrite H. cbn. rewrite family_template_record. by constructor.
    - destruct (truthy _); cbn; [exact H|]. rewrite family_template_record. by constructor. }
  rewrite M_bind_eq. unfold lift.
  destruct (family_answer_shape msg payload1
              (if fresh then <["current_question_key" := VStr "premiumType"]>
                               (conversation_context s)
               else conversation_context s) Hp1) as (p' & verr & -> & Hp').
  destruct Hp' as [i pr po wc ws e m ins Hi Hpr Hpo He Hm Hins].
  rewrite family_respond_eq.
  destruct (is_error verr).
  { cbn. split_and!; try done. left. done. }
  destruct (String.eqb_spec (family_next i pr po e m ins) "DONE") as [Hd|Hd].
  { cbn. split_and!; try done.
    - by apply ctx_typed_marker.
    - right. split; [done|]. unfold marker_of. cbn. by rewrite marker_union_singleton. }
  destruct (family_next_label i pr po e m ins) as [?|[t Ht]]; [done|].
  rewrite Ht. cbn. split_and!; try done.
  - by apply ctx_typed_marker.
  - left. split; [done|]. right. unfold family_payload_of. cbn.
    unfold dict_get. rewrite lookup_insert_eq. cbn. by constructor.
Qed.
Lemma default_some {A : Type} (d x : A) : default d (Some x) = x.
Proof. reflexivity. Qed.

(** Running a store computation on an explicit store, one step at a
    time. *)
Ltac m_step :=
  first
    [ rewrite M_bind_eq
    | rewrite default_some
    | progress unfold SessionManager.get_session, SessionManager.get_stage,
        SessionManager.get_chat_history, SessionManager.get_collected_info,
        SessionManager.set_stage, SessionManager.set_collected_info,
        SessionManager.update_session, SessionManager.modify,
        SessionManager.clear_session_for_global_reset, lift
    | progress unfold mret, M_mret, M_ret
    | progress cbv beta iota ].

Ltac m_run := repeat m_step.

Lemma quote_generation_step now sid api s :
  exists reply,
    QuoteManager.run_quote_generation now sid api (Some s) = (Ok reply, Some s)
    \/ QuoteManager.run_quote_generation now sid api (Some s)
       = (Ok reply, Some (SessionManager.with_last_active now
                            (SessionManager.with_stage "initial" s))).
Proof.
  unfold QuoteManager.run_quote_generation, try_except. m_run.
  destruct (negb (truthy (dict_get (conversation_context s) "primary_product"))).
  { m_run. eexists. left. reflexivity. }
  m_run.
  match goal with |- context [negb (truthy ?x)] => destruct (negb (truthy x)) end.
  { m_run. eexists. left. reflexivity. }
  m_run.
  match goal with |- context [py_get ?r "success" VNone] =>
    destruct (py_get r "success" VNone) end.
  - m_run. eexists. right. reflexivity.
  - m_run. eexists. right. reflexivity.
Qed.

Lemma session_inv_touch now s :
  session_inv s -> session_inv (SessionManager.with_last_active now s).
Proof. by destruct s. Qed.

Lemma session_inv_chat h s :
  session_inv s -> session_inv (SessionManager.with_chat_history h s).
Proof. by destruct s. Qed.

Lemma fresh_session_inv now sid : session_inv (SessionManager.get_default_session now sid).
Proof.
  split; [|reflexivity].
  apply ctx_typed_literal. reflexivity.
Qed.
Lemma marker_after_product (c : gmap string value) v :
  dict_get ({["primary_product" := v]} ∪ c) "current_question_key"
  = dict_get c "current_question_key".
Proof.
  unfold dict_get. rewrite <- insert_union_singleton_l. by rewrite lookup_insert_ne.
Qed.

Lemma ctx_typed_product (c : gmap string value) v :
  ctx_typed c -> ctx_typed ({["primary_product" := v]} ∪ c).
Proof.
  intros H. rewrite <- insert_union_singleton_l. by apply ctx_typed_insert.
Qed.

Lemma stage_eqb_refl (x : string) : (x =? x)%string = true.
Proof. apply String.eqb_refl. Qed.

Lemma route_step now sid classify api msg s :
  session_inv s ->
  route_ok now s
    (Orchestrator.route now sid classify api msg (stage s) (chat_history s) (Some s)).
Proof.
  intros [Hc Hst]. unfold Orchestrator.route.
  destruct ((stage s =? "")%string || (stage s =? "initial")%string) eqn:Hinit.
  { assert (Hm : truthy (marker_of s) = false).
    { apply orb_prop in Hinit as [H|H]; apply String.eqb_eq in H; rewrite H in Hst;
        exact Hst. }
    destruct (Orchestrator.intent _ =? "greeting")%string.
    { cbn. by split. }
    destruct (Orchestrator.product _).
    - (* travel *)
      m_run. unfold SessionManager.update_conversation_context.
      rewrite lookup_singleton_ne by done. m_run.
      match goal with |- context [Travel.run_travel_payload_agent _ _ _ _ (Some ?x)] =>
        set (s2 := x) end.
      assert (Hm2 : truthy (marker_of s2) = false).
      { unfold marker_of. subst s2. cbn [conversation_context
          SessionManager.with_last_active SessionManager.with_conversation_context
          SessionManager.with_stage].
        by rewrite marker_after_product. }
      rewrite travel_agent_start by exact Hm2. cbn [route_ok].
      split.
      + cbn. apply ctx_typed_marker. by apply ctx_typed_product.
      + cbn. right. left. apply marker_union_singleton.
    - (* family *)
      m_run. unfold SessionManager.update_conversation_context.
      rewrite lookup_singleton_ne by done. m_run.
      match goal with |- context [Family.run_family_payload_agent _ _ _ _ (Some ?x)] =>
        set (s2 := x) end.
      assert (Hc2 : ctx_typed (conversation_context s2)).
      { subst s2. cbn. by apply ctx_typed_product. }
      assert (Hf2 : family_collecting s2).
      { left. unfold marker_of. subst s2. cbn [conversation_context
          SessionManager.with_last_active SessionManager.with_conversation_context
          SessionManager.with_stage].
        by rewrite marker_after_product. }
      pose proof (family_agent_step now sid msg (chat_history s) s2 Hc2 Hf2) as Hstep.
      destruct (Family.run_family_payload_agent _ _ _ _ _) as [[reply|err] [s'|]];
        cbn [family_step_ok route_ok] in *; try contradiction.
      destruct Hstep as (_ & _ & Hc' & [[Hs' Hcol]|[Hs' Hmk]]).
      + split; [done|]. rewrite Hs'. subst s2. cbn. exact Hcol.
      + split; [done|]. rewrite Hs'. cbn. exact Hmk.
    - cbn. by split.
    - cbn. by split. }
  apply orb_false_elim in Hinit as [_ Hinit].
  destruct (stage s =? "travel_collection")%string eqn:Ht.
  { pose proof (travel_agent_step now sid msg (chat_history s) s Hc Hst) as Hstep.
    apply String.eqb_eq in Ht.
    destruct (Travel.run_travel_payload_agent _ _ _ _ _) as [[reply|err] [s'|]];
      cbn [travel_step_ok route_ok] in *; try contradiction; try done.
    destruct Hstep as (_ & _ & Hc' & [[Hs' Hcol]|[Hs' Hmk]]).
    - split; [done|]. rewrite Hs', Ht. cbn. exact Hcol.
    - split; [done|]. rewrite Hs'. cbn. exact Hmk. }
  destruct (stage s =? "family_collection")%string eqn:Hf.
  { pose proof (family_agent_step now sid msg (chat_history s) s Hc Hst) as Hstep.
    apply String.eqb_eq in Hf.
    destruct (Family.run_family_payload_agent _ _ _ _ _) as [[reply|err] [s'|]];
      cbn [family_step_ok route_ok] in *; try contradiction.
    destruct Hstep as (_ & _ & Hc' & [[Hs' Hcol]|[Hs' Hmk]]).
    - split; [done|]. rewrite Hs', Hf. cbn. exact Hcol.
    - split; [done|]. rewrite Hs'. cbn. exact Hmk. }
  destruct (stage s =? "quote_generation")%string eqn:Hq.
  { destruct (quote_generation_step now sid api s) as [reply [-> | ->]]; cbn [route_ok].
    - split; [done|]. by rewrite Ht, Hf.
    - split; [done|]. cbn. exact Hst. }
  cbn. split; [done|]. by rewrite Ht, Hf.
Qed.
(** What handling one message does to the store. *)
Lemma dispatch_step now sid classify api msg st :
  store_inv st ->
  match Orchestrator.dispatch now sid classify api msg st with
  | (Raise _, st') =>
      exists s, st = Some s /\ stage s = "travel_collection"
                /\ (st' = Some s \/ st' = Some (SessionManager.with_last_active now s))
  | (Ok _, st') => store_inv st'
  end.
Proof.
  intros Hinv. unfold Orchestrator.dispatch.
  destruct ((lower (strip msg) =? "hi")%string || (lower (strip msg) =? "hello")%string).
  { m_run. cbn [store_inv]. apply session_inv_touch, session_inv_chat, fresh_session_inv. }
  set (s := default (SessionManager.get_default_session now sid) st).
  assert (Hs : session_inv s).
  { subst s. destruct st as [s0|]; [exact Hinv|apply fresh_session_inv]. }
  assert (Hget : SessionManager.get_session now sid st = (Ok s, Some s)).
  { subst s. by destruct st. }
  unfold SessionManager.get_stage, SessionManager.get_chat_history.
  rewrite !M_bind_eq, Hget. unfold mret at 1, M_mret, M_ret. cbv beta iota.
  rewrite !M_bind_eq. cbn [SessionManager.get_session].
  unfold mret at 1, M_mret, M_ret. cbv beta iota.
  pose proof (route_step now sid classify api msg s Hs) as Hstep.
  clearbody s. rewrite M_bind_eq.
  destruct (Orchestrator.route now sid classify api msg (stage s) (chat_history s) (Some s))
    as [[reply|err] st1]; cbn [route_ok] in Hstep.
  - destruct st1 as [s1|]; [|contradiction].
    m_run. cbn [store_inv]. by apply session_inv_touch, session_inv_chat.
  - destruct Hstep as [Hstage Hst1].
    destruct st as [s0|]; cbn in Hget.
    + exists s0. assert (s = s0) as -> by congruence. done.
    + assert (s = SessionManager.get_default_session now sid) as -> by congruence.
      cbn in Hstage. discriminate.
Qed.

Lemma handle_eq now sid classify api msg st :
  Orchestrator.handle now sid classify api msg st
  = match Orchestrator.dispatch now sid classify api msg st with
    | (Ok reply, st') => (reply, st')
    | (Raise _, st') => (VStr Orchestrator.MSG_APOLOGY, st')
    end.
Proof.
  unfold Orchestrator.handle, Orchestrator.orchestrate_chat, try_except.
  destruct (Orchestrator.dispatch now sid classify api msg st) as [[reply|err] st'];
    reflexivity.
Qed.

(** Every reachable store is well formed. *)
Lemma reachable_inv sid st : reachable sid st -> store_inv st.
Proof.
  induction 1 as [|now classify api msg st Hr IH]; [exact I|].
  rewrite handle_eq.
  pose proof (dispatch_step now sid classify api msg st IH) as Hstep.
  destruct (Orchestrator.dispatch now sid classify api msg st) as [[reply|err] st'];
    cbn [snd]; [exact Hstep|].
  destruct Hstep as (s & -> & _ & [-> | ->]); [exact IH|].
  cbn [store_inv] in *. by apply session_inv_touch.
Qed.

Lemma converse_reachable classify msgs now st :
  reachable "s1" st -> reachable "s1" (converse classify msgs now st).2.
Proof.
  revert now st. induction msgs as [|m rest IH]; intros now st Hr; [exact Hr|].
  cbn [converse].
  pose proof (reach_handle "s1" now classify api_ok m st Hr) as H1.
  destruct (Orchestrator.handle now "s1" classify api_ok m st) as [reply st'].
  specialize (IH (now + 1) st' H1).
  destruct (converse classify rest (now + 1) st') as [replies st''].
  exact IH.
Qed.

Lemma none_free_dict (d : gmap string value) :
  map_Forall (fun _ v => none_free v = true) d -> none_free (VDict d) = true.
Proof.
  cbn [none_free].
  apply (map_fold_weak_ind
           (fun r (m : gmap string value) =>
              map_Forall (fun _ v => none_free v = true) m -> r = true)).
  - done.
  - intros k x m r Hk IH Hall.
    apply map_Forall_insert in Hall as [Hx Hm]; [|done].
    by rewrite Hx, IH.
Qed.

Lemma map_Forall_mkdict (P : string -> value -> Prop) (l : list (string * value)) :
  Forall (fun kv => P kv.1 kv.2) l -> map_Forall P (mkdict l).
Proof.
  induction 1 as [|[k v] l Hkv Hl IH]; [apply map_Forall_empty|].
  unfold mkdict. cbn [list_to_map foldr fst snd]. by apply map_Forall_insert_2.
Qed.

Lemma none_free_mkdict (l : list (string * value)) :
  forallb (fun kv => none_free kv.2) l = true -> none_free (VDict (mkdict l)) = true.
Proof.
  intros H. apply none_free_dict, map_Forall_mkdict.
  apply Forall_forall. intros kv Hin.
  rewrite forallb_forall in H. apply H. by apply list_elem_of_In.
Qed.

Lemma none_free_addons (ad : gmap string value) :
  map_Forall (fun _ v => addon_ok v) ad -> none_free (VDict ad) = true.
Proof.
  intros H. apply none_free_dict. intros k v Hk. destruct (H k v Hk) as [b ->]. reflexivity.
Qed.

Lemma none_free_codes (codes : list string) : forallb none_free (VStr <$> codes) = true.
Proof. induction codes; [done|]. rewrite fmap_cons. cbn. done. Qed.
Lemma next_label_done_facts c cc z ad e m :
  next_label c cc z ad e m = Ok "DONE" ->
  truthy (dict_get c "group_type_choice") = true
  /\ truthy e = true /\ truthy m = true
  /\ (if eq_str (dict_get c "policy_type_choice") "annual"
      then truthy z = true else truthy cc = true).
Proof.
  unfold next_label. branch_all; try discriminate; intros _.
  all: repeat match goal with
       | H : negb _ = false |- _ => apply negb_false_iff in H
       end; done.
Qed.

Lemma set_leaf_final a cc nd z wc ws wga wgh ad tr hi cp e m v :
  py_setitem2 (travel_final a cc nd z wc ws wga wgh ad tr hi cp e m) "travel" "zone" v
  = Ok (travel_final a cc nd v wc ws wga wgh ad tr hi cp e m)
  /\ py_setitem2 (travel_final a cc nd z wc ws wga wgh ad tr hi cp e m)
       "travel" "country_code" v
  = Ok (travel_final a v nd z wc ws wga wgh ad tr hi cp e m).
Proof. destruct hi; split; reflexivity. Qed.

Lemma none_free_final a cc nd z wc ws wga wgh ad total child adult group hi cp e m :
  none_free cc = true -> none_free nd = true -> none_free z = true ->
  map_Forall (fun _ v => addon_ok v) ad ->
  none_free total = true -> none_free child = true ->
  none_free adult = true -> none_free group = true ->
  (forall v, hi = Some v -> none_free v = true) ->
  none_free e = true -> none_free m = true ->
  none_free (travel_final a cc nd z wc ws wga wgh ad
               (travellers_record total child adult group) hi cp e m) = true.
Proof.
  intros Hcc Hnd Hz Had Ht Hch Had' Hg Hhi He Hm.
  pose proof (none_free_addons ad Had) as Hads.
  assert (Htr : none_free (VDict (travellers_record total child adult group)) = true).
  { apply none_free_mkdict. cbn [forallb snd]. by rewrite Ht, Hch, Had', Hg. }
  unfold travel_final. apply none_free_mkdict. cbn [forallb snd].
  assert (Hmedia : none_free (VDict (mkdict [("wcc", VStr "HLS")])) = true) by reflexivity.
  assert (Hcep : none_free (VDict ∅) = true) by reflexivity.
  assert (Hprom : none_free (VDict (mkdict [("coupon_code", VStr cp)])) = true) by reflexivity.
  assert (Hleads : none_free (VDict (mkdict [("email", e); ("contact_mobile", m)])) = true).
  { apply none_free_mkdict. cbn [forallb snd]. by rewrite He, Hm. }
  rewrite Hmedia, Hcep, Hprom, Hleads.
  assert (Htravel : forall base : list (string * value),
            forallb (fun kv => none_free kv.2) base = true ->
            none_free (VDict match hi with
                             | Some v => <["households_info" := v]> (mkdict base)
                             | None => mkdict base
                             end) = true).
  { intros base Hb. destruct hi as [v|].
    - apply none_free_dict, map_Forall_insert_2; [by apply Hhi|].
      apply map_Forall_mkdict, Forall_forall. intros kv Hin.
      rewrite forallb_forall in Hb. apply Hb. by apply list_elem_of_In.
    - by apply none_free_mkdict. }
  rewrite Htravel; [reflexivity|].
  cbn [forallb snd]. rewrite Hcc, Hnd, Hz, Hads, Htr. reflexivity.
Qed.

(* ===================================================================== *)
(** ** The properties of the specification *)
(* ===================================================================== *)





(** C4 (the code departs from the claim).  The travel agent stores the
    answer to a date question without parsing it: whatever the message,
    the start date is written to the context with [/] replaced by [-] and
    no validation error is returned.  The text [tomorrow], which is not a
    date, is stored and the end date is asked next.  The family agent, on
    the same text, returns its validation error and leaves the record as
    it was. *)
Theorem C4_travel_dates_are_not_validated (msg : string) :
  Travel.apply_answer msg (dict_get (collected_info session_at_start_date) "payload")
    (conversation_context session_at_start_date)
  = Ok (inr (dict_get (collected_info session_at_start_date) "payload",
             <["start_date" := VStr (replace "/" "-" (strip msg))]>
               (conversation_context session_at_start_date),
             None))
  /\ strptime_ymd "tomorrow" = Raise ValueError
  /\ (exists s',
        Travel.run_travel_payload_agent 1 "s1" "tomorrow" [] (Some session_at_start_date)
        = (Ok (VStr "And what is your travel end date (YYYY-MM-DD)?"), Some s')
        /\ conversation_context s' !! "start_date" = Some (VStr "tomorrow")
        /\ conversation_context s' !! "current_question_key" = Some (VStr "end_date"))
  /\ Family.process_user_answer "tomorrow" Family.get_family_payload_template
       {["current_question_key" := VStr "policyInceptionDate"]}
     = Ok (Family.get_family_payload_template,
           {["current_question_key" := VStr "policyInceptionDate"]},
           Some Family.MSG_BAD_DATE).
Proof.
  split_and!.
  - reflexivity.
  - reflexivity.
  - eexists. split; [vm_compute; reflexivity|]. split; reflexivity.
  - reflexivity.
Qed.

(** C5 (the code departs from the claim).  In a complete single-trip
    conversation the question after the last add-on is the e-mail address:
    the coupon-code question is not among the replies. *)
Theorem C5_coupon_question_is_never_asked :
  (converse (classify_as Orchestrator.TRAVEL) (single_trip_messages "2025-03-01") 1 None).1
  = [VStr "Are you looking for a **Single Trip** or an **Annual Multi-Trip** policy?";
     VStr "Who will be traveling? (Yourself, Family, Group of Adults, or Group of Family)";
     VStr "Where are you traveling to? You can enter one or more countries separated by commas (max 10).";
     VStr "What is your travel start date (YYYY-MM-DD)?";
     VStr "And what is your travel end date (YYYY-MM-DD)?";
     VStr "Do you need coverage for pre-existing medical conditions? (yes/no)";
     VStr "Add coverage for Loss of Frequent Flyer Miles? (yes/no)";
     VStr "Add the Flight Delay benefit? (yes/no)";
     VStr "What is your email address?";
     VStr "Finally, what is your 8-digit contact mobile number?";
     VStr "Thank you, I have all the information. Generating your quote now..."].
Proof. vm_compute. reflexivity. Qed.

(** C6 (the code departs from the claim).  The message that opens a family
    conversation is itself taken as the answer to the premium-frequency
    field: the first reply is the insured-party question, [premiumType] is
    already set from that message, and the premium-frequency question is
    not among the replies of the conversation. *)
Theorem C6_triggering_message_sets_premium_type :
  (exists s',
     Orchestrator.handle 1 "s1" (classify_as Orchestrator.FAMILY) api_ok
       "I need family insurance" None
     = (VStr "Who is this plan for? (**Myself**, **Myself with Child(ren)**, or **Family**)",
        Some s')
     /\ py_getitem (dict_get (collected_info s') "family_payload") "premiumType"
        = Ok (VStr "monthly")
     /\ conversation_context s' !! "current_question_key" = Some (VStr "insured_party"))
  /\ (exists s',
     Orchestrator.handle 1 "s1" (classify_as Orchestrator.FAMILY) api_ok
       "Family cover for our annual holiday" None
     = (VStr "Who is this plan for? (**Myself**, **Myself with Child(ren)**, or **Family**)",
        Some s')
     /\ py_getitem (dict_get (collected_info s') "family_payload") "premiumType"
        = Ok (VStr "annual"))
  /\ Forall (fun reply =>
       reply <> VStr "Are you looking for a **Monthly** or an **Annual** family insurance plan?")
       (converse (classify_as Orchestrator.FAMILY) family_messages 1 None).1.
Proof.
  split_and!.
  - eexists. split; [vm_compute; reflexivity|]. split; reflexivity.
  - eexists. split; [vm_compute; reflexivity|]. reflexivity.
  - vm_compute. repeat (apply Forall_cons; split; [discriminate|]). apply Forall_nil_2.
Qed.



(** C8, counterexample.  After a complete family conversation the stored
    final record still has [CEPReferralCode] unset, and after a complete
    single-trip conversation the stored final record still has
    [travel.zone] unset. *)
Lemma C8_counterexample :
  let st := (converse (classify_as Orchestrator.FAMILY) family_messages 1 None).2 in
  let st2 := (converse (classify_as Orchestrator.TRAVEL)
                (single_trip_messages "2025-03-01") 1 None).2 in
  stage <$> st = Some "quote_generation"
  /\ (fun s => py_getitem (family_payload_of s) "CEPReferralCode") <$> st = Some (Ok VNone)
  /\ (fun s => none_free (family_payload_of s)) <$> st = Some false
  /\ stage <$> st2 = Some "quote_generation"
  /\ (fun s => Travel.travel_field (travel_payload_of s) "zone") <$> st2 = Some (Ok VNone)
  /\ (fun s => none_free (travel_payload_of s)) <$> st2 = Some false.
Proof. cbv zeta. split_and!; vm_compute; reflexivity. Qed.

(** C8, amended.  The payload produced by finalization has no transient
    field (the family [_internal] sub-structure is removed) and no unset
    leaf other than the template fields that no question fills:
    [CEPReferralCode] in a family payload, [travel.zone] in a single-trip
    payload, [travel.country_code] in an annual payload.  (Filling that
    one leaf gives a payload without any unset leaf.) *)
Theorem C8_finalized_payload_leaves :
  (forall payload,
     family_shape payload ->
     Family.determine_next_question payload = Ok "DONE" ->
     exists final : gmap string value,
       Family.finalize_payload payload = Ok (VDict final)
       /\ final !! "_internal" = None
       /\ final !! "CEPReferralCode" = Some VNone
       /\ none_free (VDict (<["CEPReferralCode" := VStr "-"]> final)) = true)
  /\ (forall payload context final,
     travel_shape payload ->
     ctx_typed context ->
     Travel.travel_field payload "policy_type"
       = Ok (dict_get context "policy_type_choice") ->
     Travel.determine_next_question payload context = Ok "DONE" ->
     Travel.finalize_payload payload context = Ok final ->
     exists filled,
       py_setitem2 final "travel"
         (if eq_str (dict_get context "policy_type_choice") "annual"
          then "country_code" else "zone") (VStr "-") = Ok filled
       /\ none_free filled = true).
Proof.
  split.
  - intros p [i pr po wc ws e m ins Hi Hpr Hpo He Hm Hins] Hdone.
    rewrite family_next_record in Hdone. injection Hdone as Hdone.
    exists (family_final i pr po wc ws). split; [apply family_finalize_record|].
    split; [reflexivity|]. split; [reflexivity|].
    unfold family_next in Hdone.
    repeat (match type of Hdone with
            | (if ?b then _ else _) = _ => destruct b eqn:?; [discriminate|]
            end).
    destruct i, pr, po; try discriminate.
    reflexivity.
  - intros p c q [a cc z ad cp e m Hcc Hz Had Hes Hms] Hc Hpol Hdone Hfin.
    rewrite determine_next_question_record in Hdone.
    apply next_label_done_facts in Hdone as (Hg & He & Hm & Hbr).
    change (Ok (VStr (if a then "annual" else "single"))
            = Ok (dict_get c "policy_type_choice")) in Hpol.
    injection Hpol as Hpol. rewrite <- Hpol in *.
    destruct (finalize_travellers_result a cc z ad cp e m c Hc)
      as (wc & ws & wga & wgh & total & child & adult & group & hi & Hft
          & Hch & Had' & Hgr & Htot & Hhi).
    unfold Travel.finalize_payload in Hfin. rewrite Hft in Hfin. res_simpl.
    unfold Travel.finalize_days in Hfin. rewrite <- Hpol in Hfin.
    assert (He' : none_free e = true) by (destruct e; done).
    assert (Hm' : none_free m = true) by (destruct m; done).
    specialize (Htot Hg).
    destruct a; cbn [eq_str] in Hfin, Hbr |- *; eqb_lit; cbv iota in Hfin, Hbr |- *.
    + (* annual *)
      change (("annual" =? "single")%string) with false in Hfin. cbv iota in Hfin.
      change (("annual" =? "annual")%string) with true in Hbr. cbv iota in Hbr.
      injection Hfin as <-.
      destruct (set_leaf_final true cc (VInt 1) z wc ws wga wgh ad
                  (travellers_record total child adult group) hi cp e m (VStr "-"))
        as [_ ->].
      eexists. split; [reflexivity|].
      apply none_free_final; try done.
      destruct Hz as [-> | [-> | ->]]; done.
    + change (("single" =? "single")%string) with true in Hfin. cbv iota in Hfin.
      change (("single" =? "annual")%string) with false in Hbr. cbv iota in Hbr.
      destruct (Travel.context_date c "start_date") as [ds|]; [|discriminate].
      destruct (Travel.context_date c "end_date") as [de|]; [|discriminate].
      unfold mbind, result_bind in Hfin. cbn [rbind] in Hfin.
      rewrite set_number_of_days_final in Hfin.
      injection Hfin as <-.
      destruct (set_leaf_final false cc (VInt (Z.max (toordinal de - toordinal ds + 1) 1))
                  z wc ws wga wgh ad
                  (travellers_record total child adult group) hi cp e m (VStr "-"))
        as [-> _].
      eexists. split; [reflexivity|].
      apply none_free_final; try done.
      destruct Hcc as [-> | [codes ->]]; [done|]. cbn [none_free]. apply none_free_codes.
Qed.

Lemma C8_finalized_payload_leaves_witness :
  (exists final : gmap string value,
     Family.finalize_payload family_record_complete = Ok (VDict final)
     /\ final !! "_internal" = None
     /\ final !! "CEPReferralCode" = Some VNone
     /\ none_free (VDict (<["CEPReferralCode" := VStr "-"]> final)) = true)
  /\ (exists filled,
     py_setitem2 travel_final_complete "travel" "zone" (VStr "-") = Ok filled
     /\ none_free filled = true).
Proof.
  destruct C8_finalized_payload_leaves as [HF HT]. split.
  - apply HF.
    + unfold family_record_complete. constructor; reflexivity.
    + vm_compute. reflexivity.
  - apply (HT travel_record_complete (context_of_trip "2025-03-05") travel_final_complete).
    + unfold travel_record_complete. constructor; try reflexivity.
      * right. by exists ["JPN"].
      * by left.
      * apply map_Forall_mkdict.
        repeat (apply Forall_cons; split; [apply addon_entry_ok|]). apply Forall_nil_2.
    + apply ctx_typed_literal. reflexivity.
    + vm_compute. reflexivity.
    + vm_compute. reflexivity.
    + vm_compute. reflexivity.
Defined.

(** C9, counterexample.  A single-trip conversation whose start date was
    answered with [tomorrow] fails in finalization when the mobile number
    arrives.  The reply is the apology, but the stored session is not the
    one from before the message: its [last_active] field has been
    refreshed by the write that preceded the failure. *)
Lemma C9_counterexample :
  let st :=
    (converse (classify_as Orchestrator.TRAVEL) (single_trip_messages "tomorrow") 1 None).2 in
  let st' :=
    (Orchestrator.handle 20 "s1" (classify_as Orchestrator.TRAVEL) api_ok "91234567" st).2 in
  (Orchestrator.dispatch 20 "s1" (classify_as Orchestrator.TRAVEL) api_ok "91234567" st).1
    = Raise ValueError
  /\ (Orchestrator.handle 20 "s1" (classify_as Orchestrator.TRAVEL) api_ok "91234567" st).1
    = VStr Orchestrator.MSG_APOLOGY
  /\ last_active <$> st = Some 11
  /\ last_active <$> st' = Some 20
  /\ st' <> st.
Proof.
  cbv zeta.
  split; [vm_compute; reflexivity|].
  split; [vm_compute; reflexivity|].
  split; [vm_compute; reflexivity|].
  split; [vm_compute; reflexivity|].
  intros H. apply (f_equal (fmap last_active)) in H.
  vm_compute in H. discriminate H.
Qed.

(** C9, amended.  For every store a conversation can reach, if handling a
    message raises, the reply is the generic apology and the stored session
    keeps its identifier, stage, chat history, collected records and
    conversation context; only [last_active] may have been set to the
    current time by a write that preceded the failure. *)
Theorem C9_failure_keeps_session (sid : string) (now : Z)
    (classify : string -> list value -> Orchestrator.Intent)
    (api : value -> value -> value) (msg : string) (st : store) (err : exn) :
  reachable sid st ->
  (Orchestrator.dispatch now sid classify api msg st).1 = Raise err ->
  exists s s',
    st = Some s
    /\ Orchestrator.handle now sid classify api msg st
       = (VStr Orchestrator.MSG_APOLOGY, Some s')
    /\ same_but_clock s s'
    /\ (last_active s' = last_active s \/ last_active s' = now).
Proof.
  intros Hr Hraise. apply reachable_inv in Hr.
  rewrite handle_eq.
  pose proof (dispatch_step now sid classify api msg st Hr) as Hstep.
  destruct (Orchestrator.dispatch now sid classify api msg st) as [[reply|e] st'];
    cbn [fst] in Hraise; [discriminate|].
  destruct Hstep as (s & -> & _ & [-> | ->]).
  - exists s, s. split_and!; try done. by left.
  - eexists s, _. split_and!; try done. by right.
Qed.

Lemma C9_failure_keeps_session_witness :
  exists s s',
    (converse (classify_as Orchestrator.TRAVEL) (single_trip_messages "tomorrow") 1 None).2
      = Some s
    /\ Orchestrator.handle 20 "s1" (classify_as Orchestrator.TRAVEL) api_ok "91234567"
         (converse (classify_as Orchestrator.TRAVEL) (single_trip_messages "tomorrow") 1 None).2
       = (VStr Orchestrator.MSG_APOLOGY, Some s')
    /\ same_but_clock s s'
    /\ (last_active s' = last_active s \/ last_active s' = 20).
Proof.
  apply (C9_failure_keeps_session "s1" 20 (classify_as Orchestrator.TRAVEL) api_ok
           "91234567" _ ValueError).
  - apply converse_reachable. apply reach_empty.
  - vm_compute. reflexivity.
Defined.

(** C10.  When the travel agent is invoked while the context has no
    awaiting-field marker, it replies with the policy-type question
    whatever the message is, and the only change to the session is that
    the marker becomes [policy_type]. *)
Theorem C10_travel_start_discards_message (now : Z) (sid msg : string)
    (hist : list value) (st : store) :
  let s := default (SessionManager.get_default_session now sid) st in
  truthy (dict_get (conversation_context s) "current_question_key") = false ->
  exists s',
    Travel.run_travel_payload_agent now sid msg hist st
      = (Ok (VStr "Are you looking for a **Single Trip** or an **Annual Multi-Trip** policy?"),
         Some s')
    /\ conversation_context s'
         = <["current_question_key" := VStr "policy_type"]> (conversation_context s)
    /\ collected_info s' = collected_info s
    /\ stage s' = stage s
    /\ chat_history s' = chat_history s
    /\ session_id s' = session_id s.
Proof.
  intros s H.
  assert (Hstart :
    Travel.run_travel_payload_agent now sid msg hist st
    = (Ok (VStr "Are you looking for a **Single Trip** or an **Annual Multi-Trip** policy?"),
       Some (SessionManager.with_last_active now
               (SessionManager.with_conversation_context
                  ({["current_question_key" := VStr "policy_type"]}
                     ∪ conversation_context s) s)))).
  { destruct st as [s0|].
    - by apply travel_agent_start.
    - reflexivity. }
  eexists. split; [exact Hstart|].
  cbn [conversation_context collected_info stage chat_history session_id
       SessionManager.with_last_active SessionManager.with_conversation_context].
  split; [|auto].
  symmetry. apply insert_union_singleton_l.
Qed.

Lemma C10_travel_start_discards_message_witness :
  exists s',
    Travel.run_travel_payload_agent 1 "s1" "I want travel insurance" [] None
      = (Ok (VStr "Are you looking for a **Single Trip** or an **Annual Multi-Trip** policy?"),
         Some s')
    /\ conversation_context s'
         = <["current_question_key" := VStr "policy_type"]>
             (conversation_context (SessionManager.get_default_session 1 "s1"))
    /\ collected_info s' = ∅
    /\ stage s' = "initial"
    /\ chat_history s' = []
    /\ session_id s' = "s1".
Proof.
  apply (C10_travel_start_discards_message 1 "s1" "I want travel insurance" [] None).
  reflexivity.
Defined.
